(** * The load-balancer provisioning sample (example.go)

    A shallow embedding of the Go program: the parameter builders are
    functions that may end in a runtime panic, the workflow is a program
    over the calls it makes to its collaborators (the Azure SDK clients,
    the environment helpers and the console), and the package-level
    variables are an explicit store that the run threads along.

    Go values are rendered as follows.
    - A pointer [*T] is an [option T]; [None] is the nil pointer.
    - An embedded struct pointer (the SDK's [*XxxPropertiesFormat]) is a
      field of type [option Xxx]; reading a promoted field through it
      dereferences it and so may panic.
    - [int] and [int32] are [Z]; the program does no arithmetic on them.
    - [error] is a record holding the text that [Error()] returns. *)

From Stdlib Require Import String Ascii List ZArith Lia Bool DecimalString.
From ExtLib Require Import Structures.Monad.
Import ListNotations.
Import MonadNotation.

Local Open Scope list_scope.
Local Open Scope string_scope.
Local Open Scope Z_scope.
Local Open Scope monad_scope.

(** ** Runtime panics *)

Inductive panic : Type :=
| NilDereference     (* invalid memory address or nil pointer dereference *)
| IndexOutOfRange.   (* index out of range *)

(** The value of a Go expression: a value, or the panic raised while
    evaluating it. *)
Inductive res (A : Type) : Type :=
| Ok (a : A)
| Panics (p : panic).

Arguments Ok {A} a.
Arguments Panics {A} p.

Definition res_bind {A B : Type} (r : res A) (f : A -> res B) : res B :=
  match r with
  | Ok a => f a
  | Panics p => Panics p
  end.

#[export] Instance Monad_res : Monad res :=
  {| ret := @Ok; bind := @res_bind |}.

(** [*p] *)
Definition deref {A : Type} (p : option A) : res A :=
  match p with
  | Some a => Ok a
  | None => Panics NilDereference
  end.

(** [s[i]] for a slice [s] and an [int] index [i]. *)
Definition index {A : Type} (s : list A) (i : Z) : res A :=
  if i <? 0 then Panics IndexOutOfRange
  else match nth_error s (Z.to_nat i) with
       | Some a => Ok a
       | None => Panics IndexOutOfRange
       end.

(** [x.f] where [f] is promoted from the embedded pointer [x.E]. *)
Definition promoted {E F : Type} (e : option E) (f : E -> F) : res F :=
  p <- deref e ;; ret (f p).

(** ** Errors and formatting *)

Record error : Type := mkError { Error : string }.

Definition nl : string := String (ascii_of_nat 10) EmptyString.

(** The operands the program hands to [fmt]: strings (an [error] is
    printed through its [Error] text) and [int32] numbers. *)
Inductive operand : Type :=
| Str (s : string)
| Int32 (z : Z).

Definition decimal (z : Z) : string := NilZero.string_of_int (Z.to_int z).

Definition operand_type (a : operand) : string :=
  match a with
  | Str _ => "string"
  | Int32 _ => "int32"
  end.

Definition operand_value (a : operand) : string :=
  match a with
  | Str s => s
  | Int32 z => decimal z
  end.

(** One verb applied to one operand: [%v] prints any operand in its
    default form, [%s] prints a string, and a verb that does not fit
    prints Go's [%!verb(type=value)]. *)
Definition format_verb (v : ascii) (a : operand) : string :=
  match v, a with
  | "v"%char, _ => operand_value a
  | "s"%char, Str s => s
  | _, _ => "%!" ++ String v ("(" ++ operand_type a ++ "=" ++ operand_value a ++ ")")
  end.

Fixpoint extra_operands (args : list operand) : string :=
  match args with
  | [] => ""
  | [a] => operand_type a ++ "=" ++ operand_value a
  | a :: rest => operand_type a ++ "=" ++ operand_value a ++ ", " ++ extra_operands rest
  end.

(** [fmt.Sprintf] on the verbs the program uses. *)
Fixpoint Sprintf (format : string) (args : list operand) : string :=
  match format with
  | EmptyString =>
      match args with
      | [] => ""
      | _ => "%!(EXTRA " ++ extra_operands args ++ ")"
      end
  | String "%" EmptyString => "%!(NOVERB)"
  | String "%" (String "%" rest) => String "%" (Sprintf rest args)
  | String "%" (String v rest) =>
      match args with
      | [] => "%!" ++ String v ("(MISSING)" ++ Sprintf rest [])
      | a :: args' => format_verb v a ++ Sprintf rest args'
      end
  | String c rest => String c (Sprintf rest args)
  end.

(** ** The SDK's data

    The request and response records of the Azure SDK packages, with the
    fields the program writes or reads.  Field [F] of type [T] is named
    [T_F]. *)

Module autorest.

Record BearerAuthorizer : Type := mkBearerAuthorizer { BearerAuthorizer_token : string }.

End autorest.

Module resources.

Record Group : Type := mkGroup { Group_Location : option string }.

Record GenericResource : Type := mkGenericResource {
  GenericResource_Name : option string;
  GenericResource_Type : option string }.

Record ResourceListResult : Type := mkResourceListResult {
  ResourceListResult_Value : option (list GenericResource) }.

End resources.

Module storage.

Inductive SkuName : Type := SkuName_unset | StandardLRS.
Inductive Kind : Type := Kind_unset | Storage.

Record Sku : Type := mkSku { Sku_Name : SkuName }.

Record AccountPropertiesCreateParameters : Type := mkAccountPropertiesCreateParameters { }.

Record AccountCreateParameters : Type := mkAccountCreateParameters {
  AccountCreateParameters_Sku : option Sku;
  AccountCreateParameters_Kind : Kind;
  AccountCreateParameters_Location : option string;
  AccountCreateParameters_AccountPropertiesCreateParameters :
    option AccountPropertiesCreateParameters }.

End storage.

Module network.

Inductive IPAllocationMethod : Type := IPAllocationMethod_unset | Static | Dynamic.
Inductive ProbeProtocol : Type := ProbeProtocol_unset | ProbeProtocolHTTP.
Inductive TransportProtocol : Type := TransportProtocol_unset | TransportProtocolTCP.
Inductive LoadDistribution : Type := LoadDistribution_unset | Default.

Record SubResource : Type := mkSubResource { SubResource_ID : option string }.

Record PublicIPAddressDNSSettings : Type := mkPublicIPAddressDNSSettings {
  PublicIPAddressDNSSettings_DomainNameLabel : option string }.

Record PublicIPAddressPropertiesFormat : Type := mkPublicIPAddressPropertiesFormat {
  PublicIPAddressPropertiesFormat_PublicIPAllocationMethod : IPAllocationMethod;
  PublicIPAddressPropertiesFormat_DNSSettings : option PublicIPAddressDNSSettings;
  PublicIPAddressPropertiesFormat_IPAddress : option string }.

Record PublicIPAddress : Type := mkPublicIPAddress {
  PublicIPAddress_ID : option string;
  PublicIPAddress_Location : option string;
  PublicIPAddress_PublicIPAddressPropertiesFormat : option PublicIPAddressPropertiesFormat }.

Record FrontendIPConfigurationPropertiesFormat : Type :=
  mkFrontendIPConfigurationPropertiesFormat {
  FrontendIPConfigurationPropertiesFormat_PrivateIPAllocationMethod : IPAllocationMethod;
  FrontendIPConfigurationPropertiesFormat_PublicIPAddress : option PublicIPAddress }.

Record FrontendIPConfiguration : Type := mkFrontendIPConfiguration {
  FrontendIPConfiguration_ID : option string;
  FrontendIPConfiguration_Name : option string;
  FrontendIPConfiguration_FrontendIPConfigurationPropertiesFormat :
    option FrontendIPConfigurationPropertiesFormat }.

Record BackendAddressPool : Type := mkBackendAddressPool {
  BackendAddressPool_ID : option string;
  BackendAddressPool_Name : option string }.

Record ProbePropertiesFormat : Type := mkProbePropertiesFormat {
  ProbePropertiesFormat_Protocol : ProbeProtocol;
  ProbePropertiesFormat_Port : option Z;
  ProbePropertiesFormat_IntervalInSeconds : option Z;
  ProbePropertiesFormat_NumberOfProbes : option Z;
  ProbePropertiesFormat_RequestPath : option string }.

Record Probe : Type := mkProbe {
  Probe_ID : option string;
  Probe_Name : option string;
  Probe_ProbePropertiesFormat : option ProbePropertiesFormat }.

Record LoadBalancingRulePropertiesFormat : Type := mkLoadBalancingRulePropertiesFormat {
  LoadBalancingRulePropertiesFormat_Protocol : TransportProtocol;
  LoadBalancingRulePropertiesFormat_FrontendPort : option Z;
  LoadBalancingRulePropertiesFormat_BackendPort : option Z;
  LoadBalancingRulePropertiesFormat_IdleTimeoutInMinutes : option Z;
  LoadBalancingRulePropertiesFormat_EnableFloatingIP : option bool;
  LoadBalancingRulePropertiesFormat_LoadDistribution : LoadDistribution;
  LoadBalancingRulePropertiesFormat_FrontendIPConfiguration : option SubResource;
  LoadBalancingRulePropertiesFormat_BackendAddressPool : option SubResource;
  LoadBalancingRulePropertiesFormat_Probe : option SubResource }.

Record LoadBalancingRule : Type := mkLoadBalancingRule {
  LoadBalancingRule_ID : option string;
  LoadBalancingRule_Name : option string;
  LoadBalancingRule_LoadBalancingRulePropertiesFormat :
    option LoadBalancingRulePropertiesFormat }.

Record InboundNatRulePropertiesFormat : Type := mkInboundNatRulePropertiesFormat {
  InboundNatRulePropertiesFormat_Protocol : TransportProtocol;
  InboundNatRulePropertiesFormat_FrontendPort : option Z;
  InboundNatRulePropertiesFormat_BackendPort : option Z;
  InboundNatRulePropertiesFormat_EnableFloatingIP : option bool;
  InboundNatRulePropertiesFormat_IdleTimeoutInMinutes : option Z;
  InboundNatRulePropertiesFormat_FrontendIPConfiguration : option SubResource }.

Record InboundNatRule : Type := mkInboundNatRule {
  InboundNatRule_ID : option string;
  InboundNatRule_Name : option string;
  InboundNatRule_InboundNatRulePropertiesFormat : option InboundNatRulePropertiesFormat }.

Record LoadBalancerPropertiesFormat : Type := mkLoadBalancerPropertiesFormat {
  LoadBalancerPropertiesFormat_FrontendIPConfigurations : option (list FrontendIPConfiguration);
  LoadBalancerPropertiesFormat_BackendAddressPools : option (list BackendAddressPool);
  LoadBalancerPropertiesFormat_Probes : option (list Probe);
  LoadBalancerPropertiesFormat_LoadBalancingRules : option (list LoadBalancingRule);
  LoadBalancerPropertiesFormat_InboundNatRules : option (list InboundNatRule) }.

Record LoadBalancer : Type := mkLoadBalancer {
  LoadBalancer_ID : option string;
  LoadBalancer_Location : option string;
  LoadBalancer_LoadBalancerPropertiesFormat : option LoadBalancerPropertiesFormat }.

Record AddressSpace : Type := mkAddressSpace {
  AddressSpace_AddressPrefixes : option (list string) }.

Record VirtualNetworkPropertiesFormat : Type := mkVirtualNetworkPropertiesFormat {
  VirtualNetworkPropertiesFormat_AddressSpace : option AddressSpace }.

Record VirtualNetwork : Type := mkVirtualNetwork {
  VirtualNetwork_Location : option string;
  VirtualNetwork_VirtualNetworkPropertiesFormat : option VirtualNetworkPropertiesFormat }.

Record SubnetPropertiesFormat : Type := mkSubnetPropertiesFormat {
  SubnetPropertiesFormat_AddressPrefix : option string }.

Record Subnet : Type := mkSubnet {
  Subnet_ID : option string;
  Subnet_SubnetPropertiesFormat : option SubnetPropertiesFormat }.

Record InterfaceIPConfigurationPropertiesFormat : Type :=
  mkInterfaceIPConfigurationPropertiesFormat {
  InterfaceIPConfigurationPropertiesFormat_Subnet : option Subnet;
  InterfaceIPConfigurationPropertiesFormat_LoadBalancerBackendAddressPools :
    option (list BackendAddressPool);
  InterfaceIPConfigurationPropertiesFormat_LoadBalancerInboundNatRules :
    option (list InboundNatRule) }.

Record InterfaceIPConfiguration : Type := mkInterfaceIPConfiguration {
  InterfaceIPConfiguration_Name : option string;
  InterfaceIPConfiguration_InterfaceIPConfigurationPropertiesFormat :
    option InterfaceIPConfigurationPropertiesFormat }.

Record InterfacePropertiesFormat : Type := mkInterfacePropertiesFormat {
  InterfacePropertiesFormat_IPConfigurations : option (list InterfaceIPConfiguration) }.

Record Interface : Type := mkInterface {
  Interface_ID : option string;
  Interface_Location : option string;
  Interface_InterfacePropertiesFormat : option InterfacePropertiesFormat }.

(** Promoted fields the program reads. *)

Definition PublicIPAddress_IPAddress (pip : PublicIPAddress) : res (option string) :=
  promoted (PublicIPAddress_PublicIPAddressPropertiesFormat pip)
           PublicIPAddressPropertiesFormat_IPAddress.

Definition LoadBalancer_BackendAddressPools (lb : LoadBalancer)
  : res (option (list BackendAddressPool)) :=
  promoted (LoadBalancer_LoadBalancerPropertiesFormat lb)
           LoadBalancerPropertiesFormat_BackendAddressPools.

Definition LoadBalancer_InboundNatRules (lb : LoadBalancer)
  : res (option (list InboundNatRule)) :=
  promoted (LoadBalancer_LoadBalancerPropertiesFormat lb)
           LoadBalancerPropertiesFormat_InboundNatRules.

Definition InboundNatRule_FrontendPort (r : InboundNatRule) : res (option Z) :=
  promoted (InboundNatRule_InboundNatRulePropertiesFormat r)
           InboundNatRulePropertiesFormat_FrontendPort.

End network.

Module compute.

Inductive VirtualMachineSizeTypes : Type := VirtualMachineSizeTypes_unset | StandardDS1.
Inductive CachingTypes : Type := CachingTypes_unset | CachingNone.
Inductive DiskCreateOptionTypes : Type := DiskCreateOptionTypes_unset | FromImage.

Record SubResource : Type := mkSubResource { SubResource_ID : option string }.

Record AvailabilitySet : Type := mkAvailabilitySet {
  AvailabilitySet_ID : option string;
  AvailabilitySet_Location : option string }.

Record OSProfile : Type := mkOSProfile {
  OSProfile_ComputerName : option string;
  OSProfile_AdminUsername : option string;
  OSProfile_AdminPassword : option string }.

Record HardwareProfile : Type := mkHardwareProfile {
  HardwareProfile_VMSize : VirtualMachineSizeTypes }.

Record ImageReference : Type := mkImageReference {
  ImageReference_Publisher : option string;
  ImageReference_Offer : option string;
  ImageReference_Sku : option string;
  ImageReference_Version : option string }.

Record VirtualHardDisk : Type := mkVirtualHardDisk { VirtualHardDisk_URI : option string }.

Record OSDisk : Type := mkOSDisk {
  OSDisk_Name : option string;
  OSDisk_Caching : CachingTypes;
  OSDisk_CreateOption : DiskCreateOptionTypes;
  OSDisk_Vhd : option VirtualHardDisk }.

Record StorageProfile : Type := mkStorageProfile {
  StorageProfile_ImageReference : option ImageReference;
  StorageProfile_OsDisk : option OSDisk }.

Record NetworkInterfaceReferenceProperties : Type := mkNetworkInterfaceReferenceProperties {
  NetworkInterfaceReferenceProperties_Primary : option bool }.

Record NetworkInterfaceReference : Type := mkNetworkInterfaceReference {
  NetworkInterfaceReference_ID : option string;
  NetworkInterfaceReference_NetworkInterfaceReferenceProperties :
    option NetworkInterfaceReferenceProperties }.

Record NetworkProfile : Type := mkNetworkProfile {
  NetworkProfile_NetworkInterfaces : option (list NetworkInterfaceReference) }.

Record VirtualMachineProperties : Type := mkVirtualMachineProperties {
  VirtualMachineProperties_OsProfile : option OSProfile;
  VirtualMachineProperties_HardwareProfile : option HardwareProfile;
  VirtualMachineProperties_StorageProfile : option StorageProfile;
  VirtualMachineProperties_NetworkProfile : option NetworkProfile;
  VirtualMachineProperties_AvailabilitySet : option SubResource }.

Record VirtualMachine : Type := mkVirtualMachine {
  VirtualMachine_Location : option string;
  VirtualMachine_VirtualMachineProperties : option VirtualMachineProperties }.

Definition VirtualMachine_OsProfile (vm : VirtualMachine) : res (option OSProfile) :=
  promoted (VirtualMachine_VirtualMachineProperties vm) VirtualMachineProperties_OsProfile.

End compute.

Module azure.

Inductive Environment : Type := PublicCloud.

End azure.

(** An SDK client handle.  The nine client types of the program
    ([resources.GroupsClient], [network.LoadBalancersClient], ...) have
    the same shape: the subscription the constructor was given, the
    authorizer stored in the handle, and the extensions added to its user
    agent. *)
Record Client : Type := mkClient {
  Client_SubscriptionID : string;
  Client_Authorizer : option autorest.BearerAuthorizer;
  Client_UserAgent : list string }.

(** The zero value of a handle, and the SDK's constructors. *)
Definition Client_zero : Client := mkClient "" None [].

Definition NewClient (subscriptionID : string) : Client := mkClient subscriptionID None [].

Definition with_Authorizer (a : option autorest.BearerAuthorizer) (c : Client) : Client :=
  mkClient (Client_SubscriptionID c) a (Client_UserAgent c).

Definition AddToUserAgent (extension : string) (c : Client) : Client :=
  mkClient (Client_SubscriptionID c) (Client_Authorizer c)
           (Client_UserAgent c ++ [extension])%list.

(** ** Package-level variables *)

Inductive client_var : Type :=
| groupClient | lbClient | vNetClient | subnetClient | pipClient
| interfaceClient | availSetClient | accountClient | vmClient.

Definition client_var_eqb (a b : client_var) : bool :=
  match a, b with
  | groupClient, groupClient | lbClient, lbClient | vNetClient, vNetClient
  | subnetClient, subnetClient | pipClient, pipClient
  | interfaceClient, interfaceClient | availSetClient, availSetClient
  | accountClient, accountClient | vmClient, vmClient => true
  | _, _ => false
  end.

Record Globals : Type := mkGlobals {
  groupName : string;
  westus : string;
  vNetName : string;
  subnetName : string;
  ipName : string;
  frontEndIPConfigName : string;
  backEndAddressPoolName : string;
  probeName : string;
  loadBalancerName : string;
  storageAccountName : string;
  vmName1 : string;
  vmName2 : string;
  clients : client_var -> Client;
  subscriptionID : string;
  authorizer : option autorest.BearerAuthorizer }.

(** The store as the [var] declarations leave it, before [init] runs. *)
Definition declared : Globals := {|
  groupName := "your-azure-sample-group";
  westus := "westus";
  vNetName := "vNet";
  subnetName := "subnet";
  ipName := "pip";
  frontEndIPConfigName := "fip";
  backEndAddressPoolName := "backEndPool";
  probeName := "probe";
  loadBalancerName := "lb";
  storageAccountName := "golangrocksonazure";
  vmName1 := "Web1";
  vmName2 := "Web2";
  clients := fun _ => Client_zero;
  subscriptionID := "";
  authorizer := None |}.

Definition with_clients (f : client_var -> Client) (g : Globals) : Globals :=
  mkGlobals (groupName g) (westus g) (vNetName g) (subnetName g) (ipName g)
            (frontEndIPConfigName g) (backEndAddressPoolName g) (probeName g)
            (loadBalancerName g) (storageAccountName g) (vmName1 g) (vmName2 g)
            f (subscriptionID g) (authorizer g).

Definition set_subscriptionID (s : string) (g : Globals) : Globals :=
  mkGlobals (groupName g) (westus g) (vNetName g) (subnetName g) (ipName g)
            (frontEndIPConfigName g) (backEndAddressPoolName g) (probeName g)
            (loadBalancerName g) (storageAccountName g) (vmName1 g) (vmName2 g)
            (clients g) s (authorizer g).

Definition set_client (v : client_var) (c : Client) (g : Globals) : Globals :=
  with_clients (fun v' => if client_var_eqb v v' then c else clients g v') g.

Definition update_client (v : client_var) (f : Client -> Client) (g : Globals) : Globals :=
  set_client v (f (clients g v)) g.

Inductive gvar : Type :=
| var_subscriptionID
| var_authorizer
| var_client (v : client_var).

(** A store to a package-level variable is an assignment to the variable
    or an update inside it (a field assignment, a pointer-receiver
    method). *)
Inductive store_kind : Type := Assign | Update.

(** ** Calls to the collaborators *)

Inductive request : Type :=
| GetAuthorizer (env : azure.Environment)
| GetEnvVarOrExit (varName : string)
| GetCommit
| Groups_CreateOrUpdate (client : Client) (resourceGroupName : string)
    (parameters : resources.Group)
| Accounts_Create (client : Client) (resourceGroupName accountName : string)
    (parameters : storage.AccountCreateParameters)
| Accounts_Create_await
| PublicIPAddresses_CreateOrUpdate (client : Client)
    (resourceGroupName publicIPAddressName : string) (parameters : network.PublicIPAddress)
| LoadBalancers_CreateOrUpdate (client : Client)
    (resourceGroupName loadBalancerName : string) (parameters : network.LoadBalancer)
| VirtualNetworks_CreateOrUpdate (client : Client)
    (resourceGroupName virtualNetworkName : string) (parameters : network.VirtualNetwork)
| Subnets_CreateOrUpdate (client : Client)
    (resourceGroupName virtualNetworkName subnetName : string) (parameters : network.Subnet)
| Subnets_Get (client : Client)
    (resourceGroupName virtualNetworkName subnetName expand : string)
| AvailabilitySets_CreateOrUpdate (client : Client) (resourceGroupName name : string)
    (parameters : compute.AvailabilitySet)
| Interfaces_CreateOrUpdate (client : Client)
    (resourceGroupName networkInterfaceName : string) (parameters : network.Interface)
| VirtualMachines_CreateOrUpdate (client : Client) (resourceGroupName VMName : string)
    (parameters : compute.VirtualMachine)
| Groups_ListResources (client : Client) (resourceGroupName filter expand : string)
| Groups_Delete (client : Client) (resourceGroupName : string)
| Scanln.

(** What the program receives from each call.  An SDK call that hands
    back a result channel and an error channel which the program reads
    at once is one call answered by the pair; [Accounts_Create] only
    starts the operation, and [Accounts_Create_await] is the later
    receive on its error channel.  [GetEnvVarOrExit] answers [None] when
    the helper ends the process itself. *)
Definition response (r : request) : Type :=
  match r with
  | GetAuthorizer _ => option autorest.BearerAuthorizer * option error
  | GetEnvVarOrExit _ => option string
  | GetCommit => string
  | Groups_CreateOrUpdate _ _ _ => resources.Group * option error
  | Accounts_Create _ _ _ _ => unit
  | Accounts_Create_await => option error
  | PublicIPAddresses_CreateOrUpdate _ _ _ _ => network.PublicIPAddress * option error
  | LoadBalancers_CreateOrUpdate _ _ _ _ => network.LoadBalancer * option error
  | VirtualNetworks_CreateOrUpdate _ _ _ _ => network.VirtualNetwork * option error
  | Subnets_CreateOrUpdate _ _ _ _ _ => network.Subnet * option error
  | Subnets_Get _ _ _ _ _ => network.Subnet * option error
  | AvailabilitySets_CreateOrUpdate _ _ _ _ => compute.AvailabilitySet * option error
  | Interfaces_CreateOrUpdate _ _ _ _ => network.Interface * option error
  | VirtualMachines_CreateOrUpdate _ _ _ _ => compute.VirtualMachine * option error
  | Groups_ListResources _ _ _ _ => resources.ResourceListResult * option error
  | Groups_Delete _ _ => option error
  | Scanln => string
  end.

(** The error a call came back with, if any. *)
Definition failure (r : request) : response r -> option error :=
  match r with
  | GetAuthorizer _ => snd
  | GetEnvVarOrExit _ => fun _ => None
  | GetCommit => fun _ => None
  | Groups_CreateOrUpdate _ _ _ => snd
  | Accounts_Create _ _ _ _ => fun _ => None
  | Accounts_Create_await => fun e => e
  | PublicIPAddresses_CreateOrUpdate _ _ _ _ => snd
  | LoadBalancers_CreateOrUpdate _ _ _ _ => snd
  | VirtualNetworks_CreateOrUpdate _ _ _ _ => snd
  | Subnets_CreateOrUpdate _ _ _ _ _ => snd
  | Subnets_Get _ _ _ _ _ => snd
  | AvailabilitySets_CreateOrUpdate _ _ _ _ => snd
  | Interfaces_CreateOrUpdate _ _ _ _ => snd
  | VirtualMachines_CreateOrUpdate _ _ _ _ => snd
  | Groups_ListResources _ _ _ _ => snd
  | Groups_Delete _ _ => fun e => e
  | Scanln => fun _ => None
  end.

(** ** Programs *)

Inductive prog (A : Type) : Type :=
| Ret (a : A)
| Exit (code : Z)                                   (* os.Exit *)
| Panic (p : panic)
| Output (s : string) (k : prog A)                   (* standard output *)
| Call (r : request) (k : response r -> prog A)
| Fetch (k : Globals -> prog A)                      (* read the package variables *)
| Store (kind : store_kind) (v : gvar) (f : Globals -> Globals) (k : prog A).

Arguments Ret {A} a.
Arguments Exit {A} code.
Arguments Panic {A} p.
Arguments Output {A} s k.
Arguments Call {A} r k.
Arguments Fetch {A} k.
Arguments Store {A} kind v f k.

Fixpoint prog_bind {A B : Type} (p : prog A) (f : A -> prog B) : prog B :=
  match p with
  | Ret a => f a
  | Exit code => Exit code
  | Panic e => Panic e
  | Output s k => Output s (prog_bind k f)
  | Call r k => Call r (fun x => prog_bind (k x) f)
  | Fetch k => Fetch (fun g => prog_bind (k g) f)
  | Store kind v h k => Store kind v h (prog_bind k f)
  end.

#[export] Instance Monad_prog : Monad prog :=
  {| ret := @Ret; bind := @prog_bind |}.

Definition call (r : request) : prog (response r) := Call r Ret.
Definition globals : prog Globals := Fetch Ret.
Definition store (kind : store_kind) (v : gvar) (f : Globals -> Globals) : prog unit :=
  Store kind v f (Ret tt).

(** The value of an expression, or the panic it raises. *)
Definition eval {A : Type} (r : res A) : prog A :=
  match r with
  | Ok a => Ret a
  | Panics p => Panic p
  end.

Definition fmt_Print (s : string) : prog unit := Output s (Ret tt).
Definition Println (s : string) : prog unit := Output (s ++ nl) (Ret tt).
Definition Printf (format : string) (args : list operand) : prog unit :=
  Output (Sprintf format args) (Ret tt).

(** ** Runs *)

Inductive event : Type :=
| EvCall (r : request) (x : response r)
| EvPrint (s : string)
| EvStore (kind : store_kind) (v : gvar).

Inductive outcome (A : Type) : Type :=
| Returned (a : A)
| Exited (code : Z)
| Panicked (p : panic).

Arguments Returned {A} a.
Arguments Exited {A} code.
Arguments Panicked {A} p.

(** A collaborator answers every call and moves to its next state. *)
Definition collaborator (W : Type) : Type := forall r : request, W -> response r * W.

Record result (W A : Type) : Type := mkResult {
  log : list event;
  out : outcome A;
  store_after : Globals;
  world_after : W }.

Arguments mkResult {W A} log out store_after world_after.
Arguments log {W A} r.
Arguments out {W A} r.
Arguments store_after {W A} r.
Arguments world_after {W A} r.

Definition emit {W A : Type} (e : event) (r : result W A) : result W A :=
  mkResult (e :: log r) (out r) (store_after r) (world_after r).

Fixpoint run {W A : Type} (h : collaborator W) (p : prog A) (g : Globals) (w : W)
  : result W A :=
  match p with
  | Ret a => mkResult [] (Returned a) g w
  | Exit code => mkResult [] (Exited code) g w
  | Panic e => mkResult [] (Panicked e) g w
  | Output s k => emit (EvPrint s) (run h k g w)
  | Call r k =>
      let (x, w') := h r w in
      emit (EvCall r x) (run h (k x) g w')
  | Fetch k => run h (k g) g w
  | Store kind v f k => emit (EvStore kind v) (run h k (f g) w)
  end.

(** ** The parameter builders *)

(** [buildID] returns a certain resource ID. *)
Definition buildID (g : Globals) (subscriptionID subType subTypeName : string) : string :=
  Sprintf "/subscriptions/%s/resourceGroups/%s/providers/Microsoft.Network/loadBalancers/%s/%s/%s"
    [Str subscriptionID; Str (groupName g); Str (loadBalancerName g);
     Str subType; Str subTypeName].

(** [buildNATrule] returns a [network.InboundNatRule] with all needed
    fields included. *)
Definition buildNATrule (g : Globals) (natRuleName subscriptionID : string)
    (frontEndPort : Z) : network.InboundNatRule :=
  {| network.InboundNatRule_ID := None;
     network.InboundNatRule_Name := Some natRuleName;
     network.InboundNatRule_InboundNatRulePropertiesFormat := Some
       {| network.InboundNatRulePropertiesFormat_Protocol := network.TransportProtocolTCP;
          network.InboundNatRulePropertiesFormat_FrontendPort := Some frontEndPort;
          network.InboundNatRulePropertiesFormat_BackendPort := Some 22;
          network.InboundNatRulePropertiesFormat_EnableFloatingIP := Some false;
          network.InboundNatRulePropertiesFormat_IdleTimeoutInMinutes := Some 4;
          network.InboundNatRulePropertiesFormat_FrontendIPConfiguration := Some
            {| network.SubResource_ID := Some
                 (buildID g subscriptionID "frontendIPConfigurations"
                    (frontEndIPConfigName g)) |} |} |}.

(** [buildNICparams] returns a [network.Interface] with all needed fields
    included.  The two element reads are evaluated in the order of the
    struct literal. *)
Definition buildNICparams (g : Globals) (subnetID : option string)
    (lb : network.LoadBalancer) (natRule : Z) : res network.Interface :=
  pools <- network.LoadBalancer_BackendAddressPools lb ;;
  pools <- deref pools ;;
  pool <- index pools 0 ;;
  rules <- network.LoadBalancer_InboundNatRules lb ;;
  rules <- deref rules ;;
  rule <- index rules natRule ;;
  ret {| network.Interface_ID := None;
         network.Interface_Location := Some (westus g);
         network.Interface_InterfacePropertiesFormat := Some
           {| network.InterfacePropertiesFormat_IPConfigurations := Some
                [ {| network.InterfaceIPConfiguration_Name := Some "pipConfig";
                     network.InterfaceIPConfiguration_InterfaceIPConfigurationPropertiesFormat :=
                       Some
                       {| network.InterfaceIPConfigurationPropertiesFormat_Subnet := Some
                            {| network.Subnet_ID := subnetID;
                               network.Subnet_SubnetPropertiesFormat := None |};
                          network.InterfaceIPConfigurationPropertiesFormat_LoadBalancerBackendAddressPools :=
                            Some
                            [ {| network.BackendAddressPool_ID :=
                                   network.BackendAddressPool_ID pool;
                                 network.BackendAddressPool_Name := None |} ];
                          network.InterfaceIPConfigurationPropertiesFormat_LoadBalancerInboundNatRules :=
                            Some
                            [ {| network.InboundNatRule_ID := network.InboundNatRule_ID rule;
                                 network.InboundNatRule_Name := None;
                                 network.InboundNatRule_InboundNatRulePropertiesFormat :=
                                   None |} ] |} |} ] |} |}.

(** [buildVhdURI] returns the Vhd URI for a VM's OS disk. *)
Definition buildVhdURI (storageAccountName vmName : string) : string :=
  Sprintf "https://%s.blob.core.windows.net/golangcontainer/%s.vhd"
    [Str storageAccountName; Str vmName].

(** [buildVMparams] returns a [compute.VirtualMachine] with all needed
    fields included. *)
Definition buildVMparams (g : Globals) (vmName : string) (nicID availSetID : option string)
  : compute.VirtualMachine :=
  {| compute.VirtualMachine_Location := Some (westus g);
     compute.VirtualMachine_VirtualMachineProperties := Some
       {| compute.VirtualMachineProperties_OsProfile := Some
            {| compute.OSProfile_ComputerName := Some vmName;
               compute.OSProfile_AdminUsername := Some "notAdmin";
               compute.OSProfile_AdminPassword := Some "Pa$$w0rd1975" |};
          compute.VirtualMachineProperties_HardwareProfile := Some
            {| compute.HardwareProfile_VMSize := compute.StandardDS1 |};
          compute.VirtualMachineProperties_StorageProfile := Some
            {| compute.StorageProfile_ImageReference := Some
                 {| compute.ImageReference_Publisher := Some "Canonical";
                    compute.ImageReference_Offer := Some "UbuntuServer";
                    compute.ImageReference_Sku := Some "16.04.0-LTS";
                    compute.ImageReference_Version := Some "latest" |};
               compute.StorageProfile_OsDisk := Some
                 {| compute.OSDisk_Name := Some "osDisk";
                    compute.OSDisk_Caching := compute.CachingNone;
                    compute.OSDisk_CreateOption := compute.FromImage;
                    compute.OSDisk_Vhd := Some
                      {| compute.VirtualHardDisk_URI := Some
                           (buildVhdURI (storageAccountName g) vmName) |} |} |};
          compute.VirtualMachineProperties_NetworkProfile := Some
            {| compute.NetworkProfile_NetworkInterfaces := Some
                 [ {| compute.NetworkInterfaceReference_ID := nicID;
                      compute.NetworkInterfaceReference_NetworkInterfaceReferenceProperties :=
                        Some
                        {| compute.NetworkInterfaceReferenceProperties_Primary :=
                             Some true |} |} ] |};
          compute.VirtualMachineProperties_AvailabilitySet := Some
            {| compute.SubResource_ID := availSetID |} |} |}.

(** ** The workflow *)

(** [onErrorFail] prints a failure message and exits the program if
    [err] is not nil. *)
Definition onErrorFail (err : option error) (message : string) : prog unit :=
  match err with
  | Some e => Printf "%s: %s" [Str message; Str (Error e)] ;; Exit 1
  | None => ret tt
  end.

(** [createClients] initializes and adds token to all needed clients in
    the sample. *)
Definition createClients (subscriptionID : string)
    (authorizer : option autorest.BearerAuthorizer) : prog unit :=
  commit <- call GetCommit ;;
  let sampleUA := Sprintf "sample/0006/%s" [Str commit] in

  store Assign (var_client groupClient) (set_client groupClient (NewClient subscriptionID)) ;;
  store Update (var_client groupClient) (update_client groupClient (with_Authorizer authorizer)) ;;
  store Update (var_client groupClient) (update_client groupClient (AddToUserAgent sampleUA)) ;;

  store Assign (var_client lbClient) (set_client lbClient (NewClient subscriptionID)) ;;
  store Update (var_client lbClient) (update_client lbClient (with_Authorizer authorizer)) ;;
  store Update (var_client lbClient) (update_client lbClient (AddToUserAgent sampleUA)) ;;

  store Assign (var_client vNetClient) (set_client vNetClient (NewClient subscriptionID)) ;;
  store Update (var_client vNetClient) (update_client vNetClient (with_Authorizer authorizer)) ;;
  store Update (var_client vNetClient) (update_client vNetClient (AddToUserAgent sampleUA)) ;;

  store Assign (var_client subnetClient) (set_client subnetClient (NewClient subscriptionID)) ;;
  store Update (var_client subnetClient) (update_client subnetClient (with_Authorizer authorizer)) ;;
  store Update (var_client subnetClient) (update_client subnetClient (AddToUserAgent sampleUA)) ;;

  store Assign (var_client pipClient) (set_client pipClient (NewClient subscriptionID)) ;;
  store Update (var_client pipClient) (update_client pipClient (with_Authorizer authorizer)) ;;
  store Update (var_client pipClient) (update_client pipClient (AddToUserAgent sampleUA)) ;;

  store Assign (var_client interfaceClient) (set_client interfaceClient (NewClient subscriptionID)) ;;
  store Update (var_client interfaceClient) (update_client interfaceClient (with_Authorizer authorizer)) ;;
  store Update (var_client interfaceClient) (update_client interfaceClient (AddToUserAgent sampleUA)) ;;

  store Assign (var_client availSetClient) (set_client availSetClient (NewClient subscriptionID)) ;;
  store Update (var_client availSetClient) (update_client availSetClient (with_Authorizer authorizer)) ;;
  store Update (var_client availSetClient) (update_client availSetClient (AddToUserAgent sampleUA)) ;;

  store Assign (var_client accountClient) (set_client accountClient (NewClient subscriptionID)) ;;
  store Update (var_client accountClient) (update_client accountClient (with_Authorizer authorizer)) ;;
  store Update (var_client accountClient) (update_client accountClient (AddToUserAgent sampleUA)) ;;

  store Assign (var_client vmClient) (set_client vmClient (NewClient subscriptionID)) ;;
  store Update (var_client vmClient) (update_client vmClient (with_Authorizer authorizer)) ;;
  store Update (var_client vmClient) (update_client vmClient (AddToUserAgent sampleUA)).

(** [init]: the authorizer it obtains is a local variable of [init] (the
    [:=] declares it), so the package-level [authorizer] is not
    assigned. *)
Definition init : prog unit :=
  '(authorizer, err) <- call (GetAuthorizer azure.PublicCloud) ;;
  onErrorFail err "GetAuthorizer failed" ;;

  value <- call (GetEnvVarOrExit "AZURE_SUBSCRIPTION_ID") ;;
  match value with
  | None => Exit 1
  | Some value =>
      store Assign var_subscriptionID (set_subscriptionID value) ;;
      g <- globals ;;
      createClients (subscriptionID g) authorizer
  end.

(** The operands of [createVM]'s closing message. *)

(** The operand [vm.OsProfile.AdminUsername], dereferenced. *)
Definition vm_AdminUsername (vm : compute.VirtualMachine) : res string :=
  profile <- compute.VirtualMachine_OsProfile vm ;;
  profile <- deref profile ;;
  deref (compute.OSProfile_AdminUsername profile).

(** The operand [vm.OsProfile.AdminPassword], dereferenced. *)
Definition vm_AdminPassword (vm : compute.VirtualMachine) : res string :=
  profile <- compute.VirtualMachine_OsProfile vm ;;
  profile <- deref profile ;;
  deref (compute.OSProfile_AdminPassword profile).

(** The operand [FrontendPort] of element [natRule] of the slice
    [lb.InboundNatRules] points to, dereferenced. *)
Definition lb_FrontendPort (lb : network.LoadBalancer) (natRule : Z) : res Z :=
  rules <- network.LoadBalancer_InboundNatRules lb ;;
  rules <- deref rules ;;
  rule <- index rules natRule ;;
  port <- network.InboundNatRule_FrontendPort rule ;;
  deref port.

(** [createVM] creates a VM, including its NIC. *)
Definition createVM (vmName : string) (subnetID availSetID ipAddress : option string)
    (lb : network.LoadBalancer) (natRule : Z) : prog (option error) :=
  let nicName := Sprintf "nic-%s" [Str vmName] in

  Printf ("Starting to create NIC for '%s' machine" ++ nl) [Str vmName] ;;
  g <- globals ;;
  nic <- eval (buildNICparams g subnetID lb natRule) ;;
  g <- globals ;;
  '(nic, err) <- call (Interfaces_CreateOrUpdate (clients g interfaceClient)
                         (groupName g) nicName nic) ;;
  match err with
  | Some e =>
      Println "Create NIC failed" ;;
      ret (Some e)
  | None =>
      Println "NIC created" ;;

      Printf ("Starting to create machine '%s'" ++ nl) [Str vmName] ;;
      g <- globals ;;
      let vm := buildVMparams g vmName (network.Interface_ID nic) availSetID in
      g <- globals ;;
      '(_, err) <- call (VirtualMachines_CreateOrUpdate (clients g vmClient)
                           (groupName g) vmName vm) ;;
      match err with
      | Some e =>
          Println "Create VM failed" ;;
          ret (Some e)
      | None =>
          Println "VM created" ;;

          adminUsername <- eval (vm_AdminUsername vm) ;;
          address <- eval (deref ipAddress) ;;
          frontendPort <- eval (lb_FrontendPort lb natRule) ;;
          adminPassword <- eval (vm_AdminPassword vm) ;;
          Printf ("Now you can connect to '%s' via 'ssh %s@%s -p %v' with password '%s'" ++ nl)
            [Str vmName; Str adminUsername; Str address; Int32 frontendPort;
             Str adminPassword] ;;

          ret None
      end
  end.

(** The struct literals of [main]. *)

Definition accountParameters (g : Globals) : storage.AccountCreateParameters :=
  {| storage.AccountCreateParameters_Sku := Some {| storage.Sku_Name := storage.StandardLRS |};
     storage.AccountCreateParameters_Kind := storage.Storage;
     storage.AccountCreateParameters_Location := Some (westus g);
     storage.AccountCreateParameters_AccountPropertiesCreateParameters :=
       Some storage.mkAccountPropertiesCreateParameters |}.

Definition pipParameters (g : Globals) : network.PublicIPAddress :=
  {| network.PublicIPAddress_ID := None;
     network.PublicIPAddress_Location := Some (westus g);
     network.PublicIPAddress_PublicIPAddressPropertiesFormat := Some
       {| network.PublicIPAddressPropertiesFormat_PublicIPAllocationMethod := network.Static;
          network.PublicIPAddressPropertiesFormat_DNSSettings := Some
            {| network.PublicIPAddressDNSSettings_DomainNameLabel := Some "domain-name" |};
          network.PublicIPAddressPropertiesFormat_IPAddress := None |} |}.

Definition lbParameters (g : Globals) (pip : network.PublicIPAddress) : network.LoadBalancer :=
  {| network.LoadBalancer_ID := None;
     network.LoadBalancer_Location := Some (westus g);
     network.LoadBalancer_LoadBalancerPropertiesFormat := Some
       {| network.LoadBalancerPropertiesFormat_FrontendIPConfigurations := Some
            [ {| network.FrontendIPConfiguration_ID := None;
                 network.FrontendIPConfiguration_Name := Some (frontEndIPConfigName g);
                 network.FrontendIPConfiguration_FrontendIPConfigurationPropertiesFormat :=
                   Some
                   {| network.FrontendIPConfigurationPropertiesFormat_PrivateIPAllocationMethod :=
                        network.Dynamic;
                      network.FrontendIPConfigurationPropertiesFormat_PublicIPAddress :=
                        Some pip |} |} ];
          network.LoadBalancerPropertiesFormat_BackendAddressPools := Some
            [ {| network.BackendAddressPool_ID := None;
                 network.BackendAddressPool_Name := Some (backEndAddressPoolName g) |} ];
          network.LoadBalancerPropertiesFormat_Probes := Some
            [ {| network.Probe_ID := None;
                 network.Probe_Name := Some (probeName g);
                 network.Probe_ProbePropertiesFormat := Some
                   {| network.ProbePropertiesFormat_Protocol := network.ProbeProtocolHTTP;
                      network.ProbePropertiesFormat_Port := Some 80;
                      network.ProbePropertiesFormat_IntervalInSeconds := Some 15;
                      network.ProbePropertiesFormat_NumberOfProbes := Some 4;
                      network.ProbePropertiesFormat_RequestPath :=
                        Some "healthprobe.aspx" |} |} ];
          network.LoadBalancerPropertiesFormat_LoadBalancingRules := Some
            [ {| network.LoadBalancingRule_ID := None;
                 network.LoadBalancingRule_Name := Some "lbRule";
                 network.LoadBalancingRule_LoadBalancingRulePropertiesFormat := Some
                   {| network.LoadBalancingRulePropertiesFormat_Protocol :=
                        network.TransportProtocolTCP;
                      network.LoadBalancingRulePropertiesFormat_FrontendPort := Some 80;
                      network.LoadBalancingRulePropertiesFormat_BackendPort := Some 80;
                      network.LoadBalancingRulePropertiesFormat_IdleTimeoutInMinutes := Some 4;
                      network.LoadBalancingRulePropertiesFormat_EnableFloatingIP := Some false;
                      network.LoadBalancingRulePropertiesFormat_LoadDistribution :=
                        network.Default;
                      network.LoadBalancingRulePropertiesFormat_FrontendIPConfiguration := Some
                        {| network.SubResource_ID := Some
                             (buildID g (subscriptionID g) "frontendIPConfigurations"
                                (frontEndIPConfigName g)) |};
                      network.LoadBalancingRulePropertiesFormat_BackendAddressPool := Some
                        {| network.SubResource_ID := Some
                             (buildID g (subscriptionID g) "backendAddressPools"
                                (backEndAddressPoolName g)) |};
                      network.LoadBalancingRulePropertiesFormat_Probe := Some
                        {| network.SubResource_ID := Some
                             (buildID g (subscriptionID g) "probes" (probeName g)) |} |} |} ];
          network.LoadBalancerPropertiesFormat_InboundNatRules := Some
            [ buildNATrule g "natRule1" (subscriptionID g) 21;
              buildNATrule g "natRule2" (subscriptionID g) 23 ] |} |}.

Definition vNetParameters (g : Globals) : network.VirtualNetwork :=
  {| network.VirtualNetwork_Location := Some (westus g);
     network.VirtualNetwork_VirtualNetworkPropertiesFormat := Some
       {| network.VirtualNetworkPropertiesFormat_AddressSpace := Some
            {| network.AddressSpace_AddressPrefixes := Some ["10.0.0.0/16"] |} |} |}.

Definition subnetParameters : network.Subnet :=
  {| network.Subnet_ID := None;
     network.Subnet_SubnetPropertiesFormat := Some
       {| network.SubnetPropertiesFormat_AddressPrefix := Some "10.0.0.0/24" |} |}.

(** The body of the [range] loop over the listed resources. *)
Fixpoint printResources (l : list resources.GenericResource) : prog unit :=
  match l with
  | [] => ret tt
  | r :: rest =>
      name <- eval (deref (resources.GenericResource_Name r)) ;;
      type <- eval (deref (resources.GenericResource_Type r)) ;;
      Printf ("----------------" ++ nl ++ "Name: %s" ++ nl ++ "Type: %s" ++ nl)
        [Str name; Str type] ;;
      printResources rest
  end.

Definition main : prog unit :=
  Println "Creating resource group" ;;
  g <- globals ;;
  let resourceGroupParameters := {| resources.Group_Location := Some (westus g) |} in
  '(_, err) <- call (Groups_CreateOrUpdate (clients g groupClient) (groupName g)
                       resourceGroupParameters) ;;
  onErrorFail err "CreateOrUpdate failed" ;;

  Println "Starting to create storage account..." ;;
  g <- globals ;;
  call (Accounts_Create (clients g accountClient) (groupName g) (storageAccountName g)
          (accountParameters g)) ;;

  Println "Starting to create public IP address..." ;;
  g <- globals ;;
  let pip := pipParameters g in
  '(pipChan, errPIP) <- call (PublicIPAddresses_CreateOrUpdate (clients g pipClient)
                                (groupName g) (ipName g) pip) ;;
  onErrorFail errPIP "CreateOrUpdate Public IP failed" ;;
  Println "... public IP created" ;;
  let pip := pipChan in

  Println "Starting to create load balancer..." ;;
  g <- globals ;;
  let lb := lbParameters g pip in
  '(lbChan, errLB) <- call (LoadBalancers_CreateOrUpdate (clients g lbClient)
                              (groupName g) (loadBalancerName g) lb) ;;
  onErrorFail errLB "CreateOrUpdate Load Balancer failed" ;;
  Println "... load balancer created" ;;
  let lb := lbChan in

  Println "Starting to create virtual network..." ;;
  g <- globals ;;
  '(_, errVnet) <- call (VirtualNetworks_CreateOrUpdate (clients g vNetClient)
                           (groupName g) (vNetName g) (vNetParameters g)) ;;
  onErrorFail errVnet "CreateOrUpdate Virtual Network failed" ;;
  Println "... virtual network created" ;;

  Println "Starting to create subnet..." ;;
  g <- globals ;;
  '(_, errSubnet) <- call (Subnets_CreateOrUpdate (clients g subnetClient)
                             (groupName g) (vNetName g) (subnetName g) subnetParameters) ;;
  onErrorFail errSubnet "CreateOrUpdate Subnet failed" ;;
  Println "... subnet created" ;;

  g <- globals ;;
  '(subnet, err) <- call (Subnets_Get (clients g subnetClient)
                            (groupName g) (vNetName g) (subnetName g) "") ;;
  onErrorFail err "Get Subnet failed" ;;

  Println "Creating availability set" ;;
  g <- globals ;;
  let availSet := {| compute.AvailabilitySet_ID := None;
                     compute.AvailabilitySet_Location := Some (westus g) |} in
  '(availSet, err) <- call (AvailabilitySets_CreateOrUpdate (clients g availSetClient)
                              (groupName g) "availSet" availSet) ;;
  onErrorFail err "CreateOrUpdate failed" ;;

  errStorageAccount <- call Accounts_Create_await ;;
  onErrorFail errStorageAccount "Create Storage Account failed" ;;
  Println "... storage account created" ;;

  g <- globals ;;
  Printf ("Creating virtual machine '%s'" ++ nl) [Str (vmName1 g)] ;;
  g <- globals ;;
  ipAddress <- eval (network.PublicIPAddress_IPAddress pip) ;;
  err <- createVM (vmName1 g) (network.Subnet_ID subnet) (compute.AvailabilitySet_ID availSet)
           ipAddress lb 0 ;;
  onErrorFail err "createVM failed" ;;

  g <- globals ;;
  Printf ("Creating virtual machine '%s'" ++ nl) [Str (vmName2 g)] ;;
  g <- globals ;;
  ipAddress <- eval (network.PublicIPAddress_IPAddress pip) ;;
  err <- createVM (vmName2 g) (network.Subnet_ID subnet) (compute.AvailabilitySet_ID availSet)
           ipAddress lb 1 ;;
  onErrorFail err "createVM failed" ;;

  Println "Listing resources in resource group" ;;
  g <- globals ;;
  '(list, err) <- call (Groups_ListResources (clients g groupClient) (groupName g) "" "") ;;
  onErrorFail err "ListResources failed" ;;
  g <- globals ;;
  Printf ("Resources in '%s' resource group" ++ nl) [Str (groupName g)] ;;
  value <- eval (deref (resources.ResourceListResult_Value list)) ;;
  printResources value ;;

  Println "Your load balancer and virtual machines have been created." ;;
  fmt_Print "Press enter to delete the resources created in this sample..." ;;

  call Scanln ;;

  Println "Starting to delete the resource group..." ;;
  g <- globals ;;
  errGroup <- call (Groups_Delete (clients g groupClient) (groupName g)) ;;
  onErrorFail errGroup "Delete resource group failed" ;;
  Println "... resource group deleted" ;;

  Println "Done!".

(** The process: the runtime runs [init], then [main]. *)
Definition program : prog unit := init ;; main.

(** ** Two collaborators to run the program against *)

(** The objects the service hands back in the sample runs. *)
Definition served_pip : network.PublicIPAddress :=
  {| network.PublicIPAddress_ID := Some "/pip";
     network.PublicIPAddress_Location := Some "westus";
     network.PublicIPAddress_PublicIPAddressPropertiesFormat := Some
       {| network.PublicIPAddressPropertiesFormat_PublicIPAllocationMethod := network.Static;
          network.PublicIPAddressPropertiesFormat_DNSSettings := None;
          network.PublicIPAddressPropertiesFormat_IPAddress := Some "40.0.0.1" |} |}.

Definition served_rule (id : string) (port : Z) : network.InboundNatRule :=
  {| network.InboundNatRule_ID := Some id;
     network.InboundNatRule_Name := None;
     network.InboundNatRule_InboundNatRulePropertiesFormat := Some
       {| network.InboundNatRulePropertiesFormat_Protocol := network.TransportProtocolTCP;
          network.InboundNatRulePropertiesFormat_FrontendPort := Some port;
          network.InboundNatRulePropertiesFormat_BackendPort := Some 22;
          network.InboundNatRulePropertiesFormat_EnableFloatingIP := Some false;
          network.InboundNatRulePropertiesFormat_IdleTimeoutInMinutes := Some 4;
          network.InboundNatRulePropertiesFormat_FrontendIPConfiguration := None |} |}.

Definition served_lb : network.LoadBalancer :=
  {| network.LoadBalancer_ID := Some "/lb";
     network.LoadBalancer_Location := Some "westus";
     network.LoadBalancer_LoadBalancerPropertiesFormat := Some
       {| network.LoadBalancerPropertiesFormat_FrontendIPConfigurations := None;
          network.LoadBalancerPropertiesFormat_BackendAddressPools := Some
            [ {| network.BackendAddressPool_ID := Some "/lb/pool";
                 network.BackendAddressPool_Name := Some "backEndPool" |} ];
          network.LoadBalancerPropertiesFormat_Probes := None;
          network.LoadBalancerPropertiesFormat_LoadBalancingRules := None;
          network.LoadBalancerPropertiesFormat_InboundNatRules := Some
            [ served_rule "/lb/nat1" 21; served_rule "/lb/nat2" 23 ] |} |}.

Definition served_list : resources.ResourceListResult :=
  {| resources.ResourceListResult_Value := Some
       [ {| resources.GenericResource_Name := Some "lb";
            resources.GenericResource_Type := Some "Microsoft.Network/loadBalancers" |} ] |}.

(** A service that acknowledges every call with a populated object; the
    network interface it returns is named after the request. *)
Definition serving : collaborator unit := fun r w =>
  match r return response r * unit with
  | GetAuthorizer _ => ((Some (autorest.mkBearerAuthorizer "token"), None), w)
  | GetEnvVarOrExit _ => (Some "sub123", w)
  | GetCommit => ("c0ffee", w)
  | Groups_CreateOrUpdate _ _ p => ((p, None), w)
  | Accounts_Create _ _ _ _ => (tt, w)
  | Accounts_Create_await => (None, w)
  | PublicIPAddresses_CreateOrUpdate _ _ _ _ => ((served_pip, None), w)
  | LoadBalancers_CreateOrUpdate _ _ _ _ => ((served_lb, None), w)
  | VirtualNetworks_CreateOrUpdate _ _ _ p => ((p, None), w)
  | Subnets_CreateOrUpdate _ _ _ _ p => ((p, None), w)
  | Subnets_Get _ _ _ _ _ =>
      (({| network.Subnet_ID := Some "/subnet";
           network.Subnet_SubnetPropertiesFormat := None |}, None), w)
  | AvailabilitySets_CreateOrUpdate _ _ _ p =>
      (({| compute.AvailabilitySet_ID := Some "/availSet";
           compute.AvailabilitySet_Location := compute.AvailabilitySet_Location p |}, None), w)
  | Interfaces_CreateOrUpdate _ _ n p =>
      (({| network.Interface_ID := Some ("/" ++ n);
           network.Interface_Location := network.Interface_Location p;
           network.Interface_InterfacePropertiesFormat :=
             network.Interface_InterfacePropertiesFormat p |}, None), w)
  | VirtualMachines_CreateOrUpdate _ _ _ p => ((p, None), w)
  | Groups_ListResources _ _ _ _ => ((served_list, None), w)
  | Groups_Delete _ _ => (None, w)
  | Scanln => ("", w)
  end.

(** A mock that reports success on every call and hands back zero
    values: nil error, empty structs. *)
Definition hollow : collaborator unit := fun r w =>
  match r return response r * unit with
  | GetAuthorizer _ => ((None, None), w)
  | GetEnvVarOrExit _ => (Some "sub123", w)
  | GetCommit => ("", w)
  | Groups_CreateOrUpdate _ _ _ => ((resources.mkGroup None, None), w)
  | Accounts_Create _ _ _ _ => (tt, w)
  | Accounts_Create_await => (None, w)
  | PublicIPAddresses_CreateOrUpdate _ _ _ _ =>
      ((network.mkPublicIPAddress None None None, None), w)
  | LoadBalancers_CreateOrUpdate _ _ _ _ => ((network.mkLoadBalancer None None None, None), w)
  | VirtualNetworks_CreateOrUpdate _ _ _ _ => ((network.mkVirtualNetwork None None, None), w)
  | Subnets_CreateOrUpdate _ _ _ _ _ => ((network.mkSubnet None None, None), w)
  | Subnets_Get _ _ _ _ _ => ((network.mkSubnet None None, None), w)
  | AvailabilitySets_CreateOrUpdate _ _ _ _ => ((compute.mkAvailabilitySet None None, None), w)
  | Interfaces_CreateOrUpdate _ _ _ _ => ((network.mkInterface None None None, None), w)
  | VirtualMachines_CreateOrUpdate _ _ _ _ => ((compute.mkVirtualMachine None None, None), w)
  | Groups_ListResources _ _ _ _ => ((resources.mkResourceListResult None, None), w)
  | Groups_Delete _ _ => (None, w)
  | Scanln => ("", w)
  end.

(** The answer to a call with its error replaced by [e]. *)
Definition refuse (e : error) (r : request) : response r -> response r :=
  match r with
  | GetAuthorizer _ => fun x => (fst x, Some e)
  | Groups_CreateOrUpdate _ _ _ => fun x => (fst x, Some e)
  | Accounts_Create_await => fun _ => Some e
  | PublicIPAddresses_CreateOrUpdate _ _ _ _ => fun x => (fst x, Some e)
  | LoadBalancers_CreateOrUpdate _ _ _ _ => fun x => (fst x, Some e)
  | VirtualNetworks_CreateOrUpdate _ _ _ _ => fun x => (fst x, Some e)
  | Subnets_CreateOrUpdate _ _ _ _ _ => fun x => (fst x, Some e)
  | Subnets_Get _ _ _ _ _ => fun x => (fst x, Some e)
  | AvailabilitySets_CreateOrUpdate _ _ _ _ => fun x => (fst x, Some e)
  | Interfaces_CreateOrUpdate _ _ _ _ => fun x => (fst x, Some e)
  | VirtualMachines_CreateOrUpdate _ _ _ _ => fun x => (fst x, Some e)
  | Groups_ListResources _ _ _ _ => fun x => (fst x, Some e)
  | Groups_Delete _ _ => fun _ => Some e
  | GetEnvVarOrExit _ => fun x => x
  | GetCommit => fun x => x
  | Accounts_Create _ _ _ _ => fun x => x
  | Scanln => fun x => x
  end.

(** The serving collaborator, except that the calls in [bad] fail with
    [e]. *)
Definition refusing (bad : request -> bool) (e : error) : collaborator unit := fun r w =>
  if bad r then (refuse e r (fst (serving r w)), w) else serving r w.

Definition is_pip_create (r : request) : bool :=
  match r with
  | PublicIPAddresses_CreateOrUpdate _ _ _ _ => true
  | _ => false
  end.

Definition is_nic_create (r : request) : bool :=
  match r with
  | Interfaces_CreateOrUpdate _ _ _ _ => true
  | _ => false
  end.

Definition is_vm_create (r : request) : bool :=
  match r with
  | VirtualMachines_CreateOrUpdate _ _ _ _ => true
  | _ => false
  end.

Definition quota : error := mkError "quota exceeded".

(** ** Observations on runs *)

Definition is_call (e : event) : bool :=
  match e with
  | EvCall _ _ => true
  | _ => false
  end.

Definition is_store (e : event) : bool :=
  match e with
  | EvStore _ _ => true
  | _ => false
  end.

(** The calls of a run, in the order they were issued. *)
Definition calls (l : list event) : list event := filter is_call l.

(** The error of a failed call. *)
Definition failed (e : event) : option error :=
  match e with
  | EvCall r x => failure r x
  | _ => None
  end.

(** The load-balancer definitions sent to the service. *)
Definition lb_definitions (l : list event) : list network.LoadBalancer :=
  flat_map (fun e => match e with
                     | EvCall (LoadBalancers_CreateOrUpdate _ _ _ p) _ => [p]
                     | _ => []
                     end) l.

(** The virtual-machine definitions sent to the service. *)
Definition vm_definitions (l : list event) : list compute.VirtualMachine :=
  flat_map (fun e => match e with
                     | EvCall (VirtualMachines_CreateOrUpdate _ _ _ p) _ => [p]
                     | _ => []
                     end) l.

(** The names under which network interfaces were created. *)
Definition nic_names (l : list event) : list string :=
  flat_map (fun e => match e with
                     | EvCall (Interfaces_CreateOrUpdate _ _ n _) _ => [n]
                     | _ => []
                     end) l.

(** How many times a variable was assigned. *)
Definition gvar_eqb (a b : gvar) : bool :=
  match a, b with
  | var_subscriptionID, var_subscriptionID => true
  | var_authorizer, var_authorizer => true
  | var_client x, var_client y => client_var_eqb x y
  | _, _ => false
  end.

Definition assigns (v : gvar) (e : event) : bool :=
  match e with
  | EvStore Assign v' => gvar_eqb v v'
  | _ => false
  end.

Definition assignments (v : gvar) (l : list event) : nat :=
  List.length (filter (assigns v) l).

(** The load balancer as [buildNICparams] and [createVM] need it: both
    lists present, a first backend pool, and a NAT rule at the index. *)
Definition lists_ready (lb : network.LoadBalancer) (natRule : Z) : Prop :=
  exists props pools rules,
    network.LoadBalancer_LoadBalancerPropertiesFormat lb = Some props /\
    network.LoadBalancerPropertiesFormat_BackendAddressPools props = Some pools /\
    pools <> [] /\
    network.LoadBalancerPropertiesFormat_InboundNatRules props = Some rules /\
    0 <= natRule < Z.of_nat (List.length rules).

(** The NAT rule at the index carries a front-end port. *)
Definition port_ready (lb : network.LoadBalancer) (natRule : Z) : Prop :=
  exists props rules rule format port,
    network.LoadBalancer_LoadBalancerPropertiesFormat lb = Some props /\
    network.LoadBalancerPropertiesFormat_InboundNatRules props = Some rules /\
    nth_error rules (Z.to_nat natRule) = Some rule /\
    network.InboundNatRule_InboundNatRulePropertiesFormat rule = Some format /\
    network.InboundNatRulePropertiesFormat_FrontendPort format = Some port.

(** ** Properties of every run

    [always good P p g] says that [P] holds of the log, the outcome and
    the final store of every run of [p] from the store [g] in which each
    call is answered within [good]. *)

Definition answers : Type := forall r : request, response r -> Prop.

Definition any_answer : answers := fun _ _ => True.

Fixpoint always {A : Type} (good : answers)
    (P : list event -> outcome A -> Globals -> Prop) (p : prog A) (g : Globals) : Prop :=
  match p with
  | Ret a => P [] (Returned a) g
  | Exit code => P [] (Exited code) g
  | Panic e => P [] (Panicked e) g
  | Output s k => always good (fun l => P (EvPrint s :: l)) k g
  | Call r k => forall x : response r, good r x -> always good (fun l => P (EvCall r x :: l)) (k x) g
  | Fetch k => always good P (k g) g
  | Store kind v f k => always good (fun l => P (EvStore kind v :: l)) k (f g)
  end.

Definition is_print (e : event) : bool :=
  match e with
  | EvPrint _ => true
  | _ => false
  end.

(** Whether a call matching [q] was issued. *)
Definition issued (q : request -> bool) (l : list event) : bool :=
  existsb (fun e => match e with
                    | EvCall r _ => q r
                    | _ => false
                    end) l.

(** Whether a call matching [q] came back with an error. *)
Definition refused (q : request -> bool) (l : list event) : bool :=
  existsb (fun e => match e with
                    | EvCall r x => q r && match failure r x with
                                           | Some _ => true
                                           | None => false
                                           end
                    | _ => false
                    end) l.

Definition is_lb_create (r : request) : bool :=
  match r with
  | LoadBalancers_CreateOrUpdate _ _ _ _ => true
  | _ => false
  end.

Definition is_subnet_create (r : request) : bool :=
  match r with
  | Subnets_CreateOrUpdate _ _ _ _ _ => true
  | _ => false
  end.

Definition is_availSet_create (r : request) : bool :=
  match r with
  | AvailabilitySets_CreateOrUpdate _ _ _ _ => true
  | _ => false
  end.

Definition is_group_delete (r : request) : bool :=
  match r with
  | Groups_Delete _ _ => true
  | _ => false
  end.

(** The package-level client handles and the subscription id. *)
Definition handles : list gvar :=
  [ var_subscriptionID; var_client groupClient; var_client lbClient; var_client vNetClient;
    var_client subnetClient; var_client pipClient; var_client interfaceClient;
    var_client availSetClient; var_client accountClient; var_client vmClient ].

(** The messages [main] hands to [onErrorFail]. *)
Definition step_messages : list string :=
  [ "CreateOrUpdate failed"; "CreateOrUpdate Public IP failed";
    "CreateOrUpdate Load Balancer failed"; "CreateOrUpdate Virtual Network failed";
    "CreateOrUpdate Subnet failed"; "Get Subnet failed"; "Create Storage Account failed";
    "createVM failed"; "ListResources failed"; "Delete resource group failed" ].

(** The line a fatal step leaves on the output. *)
Definition failure_line (message : string) (e : error) : event :=
  EvPrint (message ++ ": " ++ Error e).

(** After a failed call: the process ends with status 1, no further call
    is issued, and the output ends with the failure line of a step. *)
Definition stopped {A : Type} (e : error) (ev : event) (post : list event) (o : outcome A)
  : Prop :=
  o = Exited 1 /\ calls post = [] /\
  exists message, In message step_messages /\ last post ev = failure_line message e.

Fixpoint halts_on_failure {A : Type} (l : list event) (o : outcome A) : Prop :=
  match l with
  | [] => True
  | ev :: post =>
      (forall e, failed ev = Some e -> stopped e ev post o) /\ halts_on_failure post o
  end.

(** The answers of a service that acknowledges every call: no error, and
    the objects the workflow reads from are populated: the public IP has
    its address, the load balancer has a first backend pool and NAT rules
    0 and 1 with their front-end ports, and the listing has its members'
    names and types. *)
Definition listed (r : resources.GenericResource) : Prop :=
  resources.GenericResource_Name r <> None /\ resources.GenericResource_Type r <> None.

Definition populated (r : request) : response r -> Prop :=
  match r with
  | PublicIPAddresses_CreateOrUpdate _ _ _ _ => fun x =>
      exists ip, network.PublicIPAddress_IPAddress (fst x) = Ok (Some ip)
  | LoadBalancers_CreateOrUpdate _ _ _ _ => fun x =>
      (lists_ready (fst x) 0 /\ port_ready (fst x) 0) /\
      (lists_ready (fst x) 1 /\ port_ready (fst x) 1)
  | Groups_ListResources _ _ _ _ => fun x =>
      exists members, resources.ResourceListResult_Value (fst x) = Some members /\
                      Forall listed members
  | _ => fun _ => True
  end.

Definition succeeded : answers := fun r x => failure r x = None.

Definition acknowledged : answers := fun r x => failure r x = None /\ populated r x.

(** What the service answered in a run of [main] that went through. *)
Record acknowledgements : Type := mkAcknowledgements {
  ack_group : resources.Group;
  ack_pip : network.PublicIPAddress;
  ack_lb : network.LoadBalancer;
  ack_vNet : network.VirtualNetwork;
  ack_subnet_created : network.Subnet;
  ack_subnet : network.Subnet;
  ack_availSet : compute.AvailabilitySet;
  nic1_definition : network.Interface;
  ack_nic1 : network.Interface;
  ack_vm1 : compute.VirtualMachine;
  nic2_definition : network.Interface;
  ack_nic2 : network.Interface;
  ack_vm2 : compute.VirtualMachine;
  ack_list : resources.ResourceListResult;
  ack_input : string }.

(** The calls of the twelve steps, each with its answer. *)
Definition provisioning (g : Globals) (a : acknowledgements) : list event :=
  [ (* 1 *)
    EvCall (Groups_CreateOrUpdate (clients g groupClient) (groupName g)
              {| resources.Group_Location := Some (westus g) |})
           (ack_group a, None);
    (* 2 *)
    EvCall (Accounts_Create (clients g accountClient) (groupName g) (storageAccountName g)
              (accountParameters g))
           tt;
    (* 3 *)
    EvCall (PublicIPAddresses_CreateOrUpdate (clients g pipClient) (groupName g) (ipName g)
              (pipParameters g))
           (ack_pip a, None);
    (* 4 *)
    EvCall (LoadBalancers_CreateOrUpdate (clients g lbClient) (groupName g)
              (loadBalancerName g) (lbParameters g (ack_pip a)))
           (ack_lb a, None);
    (* 5 *)
    EvCall (VirtualNetworks_CreateOrUpdate (clients g vNetClient) (groupName g) (vNetName g)
              (vNetParameters g))
           (ack_vNet a, None);
    EvCall (Subnets_CreateOrUpdate (clients g subnetClient) (groupName g) (vNetName g)
              (subnetName g) subnetParameters)
           (ack_subnet_created a, None);
    EvCall (Subnets_Get (clients g subnetClient) (groupName g) (vNetName g) (subnetName g) "")
           (ack_subnet a, None);
    (* 6 *)
    EvCall (AvailabilitySets_CreateOrUpdate (clients g availSetClient) (groupName g) "availSet"
              {| compute.AvailabilitySet_ID := None;
                 compute.AvailabilitySet_Location := Some (westus g) |})
           (ack_availSet a, None);
    (* 7 *)
    EvCall Accounts_Create_await None;
    (* 8 *)
    EvCall (Interfaces_CreateOrUpdate (clients g interfaceClient) (groupName g)
              ("nic-" ++ vmName1 g) (nic1_definition a))
           (ack_nic1 a, None);
    EvCall (VirtualMachines_CreateOrUpdate (clients g vmClient) (groupName g) (vmName1 g)
              (buildVMparams g (vmName1 g) (network.Interface_ID (ack_nic1 a))
                 (compute.AvailabilitySet_ID (ack_availSet a))))
           (ack_vm1 a, None);
    (* 9 *)
    EvCall (Interfaces_CreateOrUpdate (clients g interfaceClient) (groupName g)
              ("nic-" ++ vmName2 g) (nic2_definition a))
           (ack_nic2 a, None);
    EvCall (VirtualMachines_CreateOrUpdate (clients g vmClient) (groupName g) (vmName2 g)
              (buildVMparams g (vmName2 g) (network.Interface_ID (ack_nic2 a))
                 (compute.AvailabilitySet_ID (ack_availSet a))))
           (ack_vm2 a, None);
    (* 10 *)
    EvCall (Groups_ListResources (clients g groupClient) (groupName g) "" "")
           (ack_list a, None);
    (* 11 *)
    EvCall Scanln (ack_input a);
    (* 12 *)
    EvCall (Groups_Delete (clients g groupClient) (groupName g)) None ].

(** The two NAT rules of the load-balancer definition. *)
Definition two_nat_rules (g : Globals) (definition : network.LoadBalancer) : Prop :=
  exists props,
    network.LoadBalancer_LoadBalancerPropertiesFormat definition = Some props /\
    network.LoadBalancerPropertiesFormat_InboundNatRules props =
      Some [ buildNATrule g "natRule1" (subscriptionID g) 21;
             buildNATrule g "natRule2" (subscriptionID g) 23 ].

(** A handle as [createClients] leaves it. *)
Definition configured (sub : string) (a : option autorest.BearerAuthorizer) (ua : string)
  : Client :=
  AddToUserAgent ua (with_Authorizer a (NewClient sub)).

(** A run of [main] that went through the twelve steps: VM #1's network
    interface is built with NAT-rule index 0 and VM #2's with index 1,
    both from the subnet the re-fetch returned and the load balancer the
    service returned; the calls are those of [provisioning]; and [main]
    returns. *)
Definition went_through (g : Globals) (l : list event) (o : outcome unit) : Prop :=
  exists a : acknowledgements,
    buildNICparams g (network.Subnet_ID (ack_subnet a)) (ack_lb a) 0
      = Ok (nic1_definition a) /\
    buildNICparams g (network.Subnet_ID (ack_subnet a)) (ack_lb a) 1
      = Ok (nic2_definition a) /\
    calls l = provisioning g a /\
    o = Returned tt.

(** ** Further observations on runs *)

Definition every_call (r : request) : bool := true.

Definition is_await (r : request) : bool :=
  match r with
  | Accounts_Create_await => true
  | _ => false
  end.

Definition is_scanln (r : request) : bool :=
  match r with
  | Scanln => true
  | _ => false
  end.

Definition is_list_resources (r : request) : bool :=
  match r with
  | Groups_ListResources _ _ _ _ => true
  | _ => false
  end.

(** The operation a call invokes. *)
Definition operation (r : request) : string :=
  match r with
  | GetAuthorizer _ => "utils.GetAuthorizer"
  | GetEnvVarOrExit _ => "utils.GetEnvVarOrExit"
  | GetCommit => "utils.GetCommit"
  | Groups_CreateOrUpdate _ _ _ => "groupClient.CreateOrUpdate"
  | Accounts_Create _ _ _ _ => "accountClient.Create"
  | Accounts_Create_await => "<-errStorageAccount"
  | PublicIPAddresses_CreateOrUpdate _ _ _ _ => "pipClient.CreateOrUpdate"
  | LoadBalancers_CreateOrUpdate _ _ _ _ => "lbClient.CreateOrUpdate"
  | VirtualNetworks_CreateOrUpdate _ _ _ _ => "vNetClient.CreateOrUpdate"
  | Subnets_CreateOrUpdate _ _ _ _ _ => "subnetClient.CreateOrUpdate"
  | Subnets_Get _ _ _ _ _ => "subnetClient.Get"
  | AvailabilitySets_CreateOrUpdate _ _ _ _ => "availSetClient.CreateOrUpdate"
  | Interfaces_CreateOrUpdate _ _ _ _ => "interfaceClient.CreateOrUpdate"
  | VirtualMachines_CreateOrUpdate _ _ _ _ => "vmClient.CreateOrUpdate"
  | Groups_ListResources _ _ _ _ => "groupClient.ListResources"
  | Groups_Delete _ _ => "groupClient.Delete"
  | Scanln => "fmt.Scanln"
  end.

Definition operations (l : list event) : list string :=
  flat_map (fun e => match e with
                     | EvCall r _ => [operation r]
                     | _ => []
                     end) l.

(** The operations of [main] and of [createVM], in the order of their
    statements. *)
Definition createVM_script : list string :=
  [ "interfaceClient.CreateOrUpdate"; "vmClient.CreateOrUpdate" ].

Definition main_script : list string :=
  ([ "groupClient.CreateOrUpdate"; "accountClient.Create"; "pipClient.CreateOrUpdate";
     "lbClient.CreateOrUpdate"; "vNetClient.CreateOrUpdate"; "subnetClient.CreateOrUpdate";
     "subnetClient.Get"; "availSetClient.CreateOrUpdate"; "<-errStorageAccount" ]
   ++ createVM_script ++ createVM_script
   ++ [ "groupClient.ListResources"; "fmt.Scanln"; "groupClient.Delete" ])%list.

(** The handle a call is made through, the package variable that holds
    it, and the resource group the call names. *)
Definition client_of (r : request) : option Client :=
  match r with
  | Groups_CreateOrUpdate c _ _ => Some c
  | Accounts_Create c _ _ _ => Some c
  | PublicIPAddresses_CreateOrUpdate c _ _ _ => Some c
  | LoadBalancers_CreateOrUpdate c _ _ _ => Some c
  | VirtualNetworks_CreateOrUpdate c _ _ _ => Some c
  | Subnets_CreateOrUpdate c _ _ _ _ => Some c
  | Subnets_Get c _ _ _ _ => Some c
  | AvailabilitySets_CreateOrUpdate c _ _ _ => Some c
  | Interfaces_CreateOrUpdate c _ _ _ => Some c
  | VirtualMachines_CreateOrUpdate c _ _ _ => Some c
  | Groups_ListResources c _ _ _ => Some c
  | Groups_Delete c _ => Some c
  | GetAuthorizer _ | GetEnvVarOrExit _ | GetCommit | Accounts_Create_await | Scanln => None
  end.

Definition handle_of (r : request) : option client_var :=
  match r with
  | Groups_CreateOrUpdate _ _ _ => Some groupClient
  | Accounts_Create _ _ _ _ => Some accountClient
  | PublicIPAddresses_CreateOrUpdate _ _ _ _ => Some pipClient
  | LoadBalancers_CreateOrUpdate _ _ _ _ => Some lbClient
  | VirtualNetworks_CreateOrUpdate _ _ _ _ => Some vNetClient
  | Subnets_CreateOrUpdate _ _ _ _ _ => Some subnetClient
  | Subnets_Get _ _ _ _ _ => Some subnetClient
  | AvailabilitySets_CreateOrUpdate _ _ _ _ => Some availSetClient
  | Interfaces_CreateOrUpdate _ _ _ _ => Some interfaceClient
  | VirtualMachines_CreateOrUpdate _ _ _ _ => Some vmClient
  | Groups_ListResources _ _ _ _ => Some groupClient
  | Groups_Delete _ _ => Some groupClient
  | GetAuthorizer _ | GetEnvVarOrExit _ | GetCommit | Accounts_Create_await | Scanln => None
  end.

Definition target_group (r : request) : option string :=
  match r with
  | Groups_CreateOrUpdate _ n _ => Some n
  | Accounts_Create _ n _ _ => Some n
  | PublicIPAddresses_CreateOrUpdate _ n _ _ => Some n
  | LoadBalancers_CreateOrUpdate _ n _ _ => Some n
  | VirtualNetworks_CreateOrUpdate _ n _ _ => Some n
  | Subnets_CreateOrUpdate _ n _ _ _ => Some n
  | Subnets_Get _ n _ _ _ => Some n
  | AvailabilitySets_CreateOrUpdate _ n _ _ => Some n
  | Interfaces_CreateOrUpdate _ n _ _ => Some n
  | VirtualMachines_CreateOrUpdate _ n _ _ => Some n
  | Groups_ListResources _ n _ _ => Some n
  | Groups_Delete _ n => Some n
  | GetAuthorizer _ | GetEnvVarOrExit _ | GetCommit | Accounts_Create_await | Scanln => None
  end.

(** A call made through the current value of its client variable and
    naming the resource group [groupName]. *)
Definition addressed (g : Globals) (e : event) : Prop :=
  match e with
  | EvCall r _ =>
      client_of r = option_map (clients g) (handle_of r) /\
      (target_group r = None \/ target_group r = Some (groupName g))
  | _ => True
  end.

(** A call, if it goes through a handle, goes through [c]; if it names a
    resource group, it names [group]. *)
Definition scoped (c : Client) (group : string) (e : event) : Prop :=
  match e with
  | EvCall r _ =>
      (client_of r = None \/ client_of r = Some c) /\
      (target_group r = None \/ target_group r = Some group)
  | _ => True
  end.

(** The name variables of two stores agree. *)
Definition same_names (g g' : Globals) : Prop :=
  groupName g = groupName g' /\ westus g = westus g' /\ vNetName g = vNetName g' /\
  subnetName g = subnetName g' /\ ipName g = ipName g' /\
  frontEndIPConfigName g = frontEndIPConfigName g' /\
  backEndAddressPoolName g = backEndAddressPoolName g' /\ probeName g = probeName g' /\
  loadBalancerName g = loadBalancerName g' /\
  storageAccountName g = storageAccountName g' /\
  vmName1 g = vmName1 g' /\ vmName2 g = vmName2 g'.

(** The lines the listing loop prints for a resource whose name and type
    are present. *)
Definition resource_lines (name type : string) : event :=
  EvPrint ("----------------" ++ nl ++ "Name: " ++ name ++ nl ++ "Type: " ++ type ++ nl).

Fixpoint listing_lines (l : list resources.GenericResource) : list event :=
  match l with
  | [] => []
  | r :: rest =>
      match resources.GenericResource_Name r, resources.GenericResource_Type r with
      | Some name, Some type => resource_lines name type :: listing_lines rest
      | _, _ => []
      end
  end.

(** The name under which a child is declared in a list of the
    load-balancer definition. *)
Definition declares {T : Type} (name_of : T -> option string) (children : option (list T))
    (name : string) : Prop :=
  exists l child, children = Some l /\ In child l /\ name_of child = Some name.

(** * Properties *)

(** ** Strings and slices *)

Lemma append_empty_r (s : string) : (s ++ "")%string = s.
Proof. induction s as [|c s IH]; simpl; [reflexivity | now rewrite IH]. Qed.

Lemma index_in_range {A : Type} (s : list A) (i : Z) :
  (exists a, index s i = Ok a) <-> 0 <= i < Z.of_nat (List.length s).
Proof.
  unfold index. destruct (Z.ltb_spec i 0) as [Hneg | Hpos].
  - split; [intros [a Ha]; discriminate | lia].
  - destruct (nth_error s (Z.to_nat i)) as [a|] eqn:E.
    + split; [intros _ | intros _; now exists a].
      assert (Z.to_nat i < List.length s)%nat
        by (apply nth_error_Some; rewrite E; discriminate).
      lia.
    + split; [intros [a Ha]; discriminate | intros H].
      apply nth_error_None in E. lia.
Qed.

Lemma index_nth {A : Type} (s : list A) (i : Z) (a : A) :
  index s i = Ok a <-> 0 <= i /\ nth_error s (Z.to_nat i) = Some a.
Proof.
  unfold index. destruct (Z.ltb_spec i 0) as [Hneg | Hpos].
  - split; [discriminate | lia].
  - destruct (nth_error s (Z.to_nat i)) as [b|].
    + split; [intros [= ->]; auto | intros [_ [= ->]]; reflexivity].
    + split; [discriminate | intros [_ H]; discriminate].
Qed.

Lemma index_of_nat {A : Type} (s : list A) (n : nat) :
  index s (Z.of_nat n) = match nth_error s n with
                         | Some a => Ok a
                         | None => Panics IndexOutOfRange
                         end.
Proof.
  unfold index. destruct (Z.ltb_spec (Z.of_nat n) 0) as [Hneg | _]; [lia |].
  now rewrite Nat2Z.id.
Qed.

(** ** The builders *)

(** C4.  For any subscription id, group name, load-balancer name,
    sub-resource type and sub-resource name, [buildID] returns
    "/subscriptions/{sub}/resourceGroups/{group}/providers/Microsoft.Network/loadBalancers/{lbName}/{subType}/{subTypeName}":
    those five values in those path positions and nothing else.  The
    group and load-balancer names are the package variables [groupName]
    and [loadBalancerName]; the result is this one string, whatever the
    rest of the store holds. *)
Theorem buildID_template :
  forall (g : Globals) (sub subType subTypeName : string),
    buildID g sub subType subTypeName =
      ("/subscriptions/" ++ sub ++ "/resourceGroups/" ++ groupName g
         ++ "/providers/Microsoft.Network/loadBalancers/" ++ loadBalancerName g
         ++ "/" ++ subType ++ "/" ++ subTypeName)%string.
Proof.
  intros g sub subType subTypeName. unfold buildID. cbn.
  now rewrite append_empty_r.
Qed.

(** C7.  For every storage account name and VM name, [buildVhdURI]
    returns "https://{storageAccount}.blob.core.windows.net/golangcontainer/{vmName}.vhd";
    for "golangrocksonazure" and "Web1" it is exactly
    "https://golangrocksonazure.blob.core.windows.net/golangcontainer/Web1.vhd". *)
Theorem buildVhdURI_template :
  (forall storageAccount vmName : string,
      buildVhdURI storageAccount vmName =
        ("https://" ++ storageAccount ++ ".blob.core.windows.net/golangcontainer/"
           ++ vmName ++ ".vhd")%string) /\
  buildVhdURI "golangrocksonazure" "Web1" =
    "https://golangrocksonazure.blob.core.windows.net/golangcontainer/Web1.vhd".
Proof.
  split; [intros storageAccount vmName | reflexivity].
  unfold buildVhdURI. cbn. reflexivity.
Qed.

(** ** Reasoning about every run *)

Arguments buildID : simpl never.
Arguments buildNATrule : simpl never.
Arguments buildNICparams : simpl never.
Arguments buildVMparams : simpl never.
Arguments lbParameters : simpl never.
Arguments pipParameters : simpl never.
Arguments accountParameters : simpl never.
Arguments vNetParameters : simpl never.
Arguments index : simpl never.

Section Always.

Variable good : answers.

Lemma always_run {W A : Type} (h : collaborator W) (p : prog A) :
  (forall r w, good r (fst (h r w))) ->
  forall (P : list event -> outcome A -> Globals -> Prop) g,
    always good P p g ->
    forall w, P (log (run h p g w)) (out (run h p g w)) (store_after (run h p g w)).
Proof.
  intros Hh.
  induction p as [a | code | e | s k IH | r k IH | k IH | kind v f k IH];
    intros P g H w; simpl in *.
  - exact H.
  - exact H.
  - exact H.
  - apply (IH (fun l => P (EvPrint s :: l))). exact H.
  - specialize (Hh r w). destruct (h r w) as [x w']. simpl in *.
    apply (IH x (fun l => P (EvCall r x :: l))). exact (H x Hh).
  - apply IH. exact H.
  - apply (IH (fun l => P (EvStore kind v :: l))). exact H.
Qed.

End Always.

Lemma always_run_any {W A : Type} (h : collaborator W) (p : prog A)
    (P : list event -> outcome A -> Globals -> Prop) g :
  always any_answer P p g ->
  forall w, P (log (run h p g w)) (out (run h p g w)) (store_after (run h p g w)).
Proof. apply always_run. intros r w. exact I. Qed.

Arguments vm_AdminUsername : simpl never.
Arguments vm_AdminPassword : simpl never.
Arguments lb_FrontendPort : simpl never.
Arguments network.PublicIPAddress_IPAddress : simpl never.

(** ** The load balancer as the builders read it *)

Lemma buildNICparams_defined (g : Globals) (subnetID : option string)
    (lb : network.LoadBalancer) (natRule : Z) :
  (exists nic, buildNICparams g subnetID lb natRule = Ok nic) <-> lists_ready lb natRule.
Proof.
  unfold buildNICparams, lists_ready, network.LoadBalancer_BackendAddressPools,
    network.LoadBalancer_InboundNatRules, promoted.
  destruct (network.LoadBalancer_LoadBalancerPropertiesFormat lb) as [props|] eqn:E1; cbn.
  2: { split; [intros [nic H]; discriminate
              | intros (p & ps & rs & Hp & _); discriminate]. }
  destruct (network.LoadBalancerPropertiesFormat_BackendAddressPools props)
    as [pools|] eqn:E2; cbn.
  2: { split; [intros [nic H]; discriminate
              | intros (p & ps & rs & Hp & Hps & _); congruence]. }
  destruct pools as [|pool pools]; cbn.
  { split; [intros [nic H]; discriminate
           | intros (p & ps & rs & Hp & Hps & Hne & _); congruence]. }
  change (index (pool :: pools) 0) with (Ok pool). cbn.
  destruct (network.LoadBalancerPropertiesFormat_InboundNatRules props)
    as [rules|] eqn:E3; cbn.
  2: { split; [intros [nic H]; discriminate
              | intros (p & ps & rs & Hp & _ & _ & Hrs & _); congruence]. }
  destruct (index rules natRule) as [rule|e] eqn:E; cbn.
  - split; [intros _ | intros _; eexists; reflexivity].
    exists props, (pool :: pools), rules.
    split; [reflexivity |]. split; [exact E2 |]. split; [discriminate |].
    split; [exact E3 |]. apply index_in_range. exists rule. exact E.
  - split; [intros [nic H]; discriminate |].
    intros (p & ps & rs & Hp & _ & _ & Hrs & Hrange).
    assert (rs = rules) by congruence. subst rs.
    apply index_in_range in Hrange. destruct Hrange as [a Ha]. congruence.
Qed.

Lemma lb_FrontendPort_defined (lb : network.LoadBalancer) (natRule : Z) :
  (exists port, lb_FrontendPort lb natRule = Ok port) <->
  0 <= natRule /\ port_ready lb natRule.
Proof.
  unfold lb_FrontendPort, port_ready, network.LoadBalancer_InboundNatRules,
    network.InboundNatRule_FrontendPort, promoted.
  destruct (network.LoadBalancer_LoadBalancerPropertiesFormat lb) as [props|] eqn:E1; cbn.
  2: { split; [intros [n H]; discriminate
              | intros (_ & p & rs & r & f & n & H & _); discriminate]. }
  destruct (network.LoadBalancerPropertiesFormat_InboundNatRules props)
    as [rules|] eqn:E2; cbn.
  2: { split; [intros [n H]; discriminate
              | intros (_ & p & rs & r & f & n & Hp & Hrs & _); congruence]. }
  destruct (index rules natRule) as [rule|e] eqn:E; cbn.
  - apply index_nth in E. destruct E as [Hpos Hnth].
    destruct (network.InboundNatRule_InboundNatRulePropertiesFormat rule) as [format|] eqn:F;
      cbn.
    + destruct (network.InboundNatRulePropertiesFormat_FrontendPort format) as [port|] eqn:P;
        cbn.
      * split; [intros _ | intros _; eexists; reflexivity].
        split; [exact Hpos |]. exists props, rules, rule, format, port.
        repeat split; assumption || reflexivity.
      * split; [intros [n H]; discriminate |].
        intros (_ & p & rs & r & f & n & Hp & Hrs & Hr & Hf & Hn).
        assert (rs = rules) by congruence. subst rs. congruence.
    + split; [intros [n H]; discriminate |].
      intros (_ & p & rs & r & f & n & Hp & Hrs & Hr & Hf & Hn).
      assert (rs = rules) by congruence. subst rs. congruence.
  - split; [intros [n H]; discriminate |].
    intros (Hpos & p & rs & r & f & n & Hp & Hrs & Hr & _).
    assert (rs = rules) by congruence. subst rs.
    assert (index rules natRule = Ok r) by (apply index_nth; auto). congruence.
Qed.

Lemma vm_AdminUsername_built (g : Globals) (vmName : string) (nicID availSetID : option string) :
  vm_AdminUsername (buildVMparams g vmName nicID availSetID) = Ok "notAdmin".
Proof. reflexivity. Qed.

Lemma vm_AdminPassword_built (g : Globals) (vmName : string) (nicID availSetID : option string) :
  vm_AdminPassword (buildVMparams g vmName nicID availSetID) = Ok "Pa$$w0rd1975".
Proof. reflexivity. Qed.

(** C6.  For every subnet identifier, every load balancer whose
    backend-pool list is non-empty and whose NAT-rule list is longer than
    the index, and every NAT-rule index (a position in the list, counted
    from 0), [buildNICparams] returns a network-interface definition with
    exactly one IP configuration, which refers to the given subnet, to
    the load balancer's backend pool at index 0 and to its NAT rule at
    the given index. *)
Theorem buildNICparams_references :
  forall (g : Globals) (subnetID : option string) (lb : network.LoadBalancer)
         (props : network.LoadBalancerPropertiesFormat)
         (pools : list network.BackendAddressPool) (rules : list network.InboundNatRule)
         (natRule : nat),
    network.LoadBalancer_LoadBalancerPropertiesFormat lb = Some props ->
    network.LoadBalancerPropertiesFormat_BackendAddressPools props = Some pools ->
    pools <> [] ->
    network.LoadBalancerPropertiesFormat_InboundNatRules props = Some rules ->
    (natRule < List.length rules)%nat ->
    exists nic format configuration ip subnet pool rule,
      buildNICparams g subnetID lb (Z.of_nat natRule) = Ok nic /\
      network.Interface_InterfacePropertiesFormat nic = Some format /\
      network.InterfacePropertiesFormat_IPConfigurations format = Some [configuration] /\
      network.InterfaceIPConfiguration_InterfaceIPConfigurationPropertiesFormat configuration
        = Some ip /\
      network.InterfaceIPConfigurationPropertiesFormat_Subnet ip = Some subnet /\
      network.Subnet_ID subnet = subnetID /\
      nth_error pools 0 = Some pool /\
      network.InterfaceIPConfigurationPropertiesFormat_LoadBalancerBackendAddressPools ip
        = Some [ {| network.BackendAddressPool_ID := network.BackendAddressPool_ID pool;
                    network.BackendAddressPool_Name := None |} ] /\
      nth_error rules natRule = Some rule /\
      network.InterfaceIPConfigurationPropertiesFormat_LoadBalancerInboundNatRules ip
        = Some [ {| network.InboundNatRule_ID := network.InboundNatRule_ID rule;
                    network.InboundNatRule_Name := None;
                    network.InboundNatRule_InboundNatRulePropertiesFormat := None |} ].
Proof.
  intros g subnetID lb props pools rules natRule Hprops Hpools Hne Hrules Hlt.
  unfold buildNICparams, network.LoadBalancer_BackendAddressPools,
    network.LoadBalancer_InboundNatRules, promoted.
  rewrite Hprops. cbn. rewrite Hpools, Hrules. cbn.
  destruct pools as [|pool pools]; [now contradiction Hne |].
  change (index (pool :: pools) 0) with (Ok pool). cbn.
  rewrite index_of_nat.
  destruct (nth_error rules natRule) as [rule|] eqn:E.
  - cbn. do 7 eexists. repeat split; reflexivity.
  - apply nth_error_None in E. lia.
Qed.

Lemma buildNICparams_references_witness :
  exists nic format configuration ip subnet pool rule,
    buildNICparams declared (Some "/subnet") served_lb (Z.of_nat 1) = Ok nic /\
    network.Interface_InterfacePropertiesFormat nic = Some format /\
    network.InterfacePropertiesFormat_IPConfigurations format = Some [configuration] /\
    network.InterfaceIPConfiguration_InterfaceIPConfigurationPropertiesFormat configuration
      = Some ip /\
    network.InterfaceIPConfigurationPropertiesFormat_Subnet ip = Some subnet /\
    network.Subnet_ID subnet = Some "/subnet" /\
    nth_error [ {| network.BackendAddressPool_ID := Some "/lb/pool";
                   network.BackendAddressPool_Name := Some "backEndPool" |} ] 0 = Some pool /\
    network.InterfaceIPConfigurationPropertiesFormat_LoadBalancerBackendAddressPools ip
      = Some [ {| network.BackendAddressPool_ID := network.BackendAddressPool_ID pool;
                  network.BackendAddressPool_Name := None |} ] /\
    nth_error [ served_rule "/lb/nat1" 21; served_rule "/lb/nat2" 23 ] 1 = Some rule /\
    network.InterfaceIPConfigurationPropertiesFormat_LoadBalancerInboundNatRules ip
      = Some [ {| network.InboundNatRule_ID := network.InboundNatRule_ID rule;
                  network.InboundNatRule_Name := None;
                  network.InboundNatRule_InboundNatRulePropertiesFormat := None |} ].
Proof.
  apply (buildNICparams_references declared (Some "/subnet") served_lb _ _ _ 1%nat
           eq_refl eq_refl).
  - discriminate.
  - reflexivity.
  - simpl. lia.
Defined.

(** ** Sequencing, the listing loop and runs of prints *)

Lemma run_bind {W A B : Type} (h : collaborator W) (p : prog A) (f : A -> prog B) :
  forall g w,
    run h (prog_bind p f) g w =
      let r := run h p g w in
      match out r with
      | Returned a =>
          let r' := run h (f a) (store_after r) (world_after r) in
          mkResult (log r ++ log r') (out r') (store_after r') (world_after r')
      | Exited code => mkResult (log r) (Exited code) (store_after r) (world_after r)
      | Panicked e => mkResult (log r) (Panicked e) (store_after r) (world_after r)
      end.
Proof.
  induction p as [a | code | e | s k IH | r k IH | k IH | kind v u k IH];
    intros g w; simpl.
  - now destruct (run h (f a) g w).
  - reflexivity.
  - reflexivity.
  - rewrite IH. simpl. now destruct (out (run h k g w)).
  - destruct (h r w) as [x w']. rewrite IH. simpl. now destruct (out (run h (k x) g w')).
  - apply IH.
  - rewrite IH. simpl. now destruct (out (run h k (u g) w)).
Qed.

Lemma always_printResources {B : Type} (good : answers)
    (l : list resources.GenericResource) (k : unit -> prog B) :
  forall (P : list event -> outcome B -> Globals -> Prop) g,
    (forall ps, forallb is_print ps = true -> P ps (Panicked NilDereference) g) ->
    (forall ps, forallb is_print ps = true ->
                always good (fun l' => P (ps ++ l')%list) (k tt) g) ->
    always good P (prog_bind (printResources l) k) g.
Proof.
  induction l as [|r rest IH]; intros P g Hpanic Hret.
  - exact (Hret [] eq_refl).
  - cbn. destruct (resources.GenericResource_Name r) as [name|]; cbn.
    2: exact (Hpanic [] eq_refl).
    destruct (resources.GenericResource_Type r) as [type|]; cbn.
    2: exact (Hpanic [] eq_refl).
    apply IH.
    + intros ps Hps. apply (Hpanic (_ :: ps)). exact Hps.
    + intros ps Hps. apply (Hret (_ :: ps)). exact Hps.
Qed.

Lemma always_printResources_listed {B : Type} (good : answers)
    (l : list resources.GenericResource) (k : unit -> prog B) :
  Forall listed l ->
  forall (P : list event -> outcome B -> Globals -> Prop) g,
    (forall ps, forallb is_print ps = true ->
                always good (fun l' => P (ps ++ l')%list) (k tt) g) ->
    always good P (prog_bind (printResources l) k) g.
Proof.
  induction 1 as [|r rest [Hname Htype] _ IH]; intros P g Hret.
  - exact (Hret [] eq_refl).
  - cbn. destruct (resources.GenericResource_Name r) as [name|]; [| now contradiction Hname].
    destruct (resources.GenericResource_Type r) as [type|]; [| now contradiction Htype].
    cbn. apply IH.
    intros ps Hps. apply (Hret (_ :: ps)). exact Hps.
Qed.

Arguments printResources : simpl never.

Section Prints.

Variable ps : list event.
Hypothesis Hps : forallb is_print ps = true.

Lemma flat_map_prints {X : Type} (f : event -> list X) :
  (forall s, f (EvPrint s) = []) -> flat_map f ps = [].
Proof.
  intros Hf. induction ps as [|[r x | s | kind v] rest IH]; simpl in *;
    try discriminate; [reflexivity |].
  rewrite Hf. apply IH. exact Hps.
Qed.

Lemma filter_prints (q : event -> bool) :
  (forall s, q (EvPrint s) = false) -> filter q ps = [].
Proof.
  intros Hq. induction ps as [|[r x | s | kind v] rest IH]; simpl in *;
    try discriminate; [reflexivity |].
  rewrite Hq. apply IH. exact Hps.
Qed.

Lemma existsb_prints (q : event -> bool) :
  (forall s, q (EvPrint s) = false) -> existsb q ps = false.
Proof.
  intros Hq. induction ps as [|[r x | s | kind v] rest IH]; simpl in *;
    try discriminate; [reflexivity |].
  rewrite Hq. apply IH. exact Hps.
Qed.

End Prints.

(** ** Exploring the runs of a program *)

Ltac take_answer :=
  match goal with
  | |- forall x : _, any_answer _ _ -> _ =>
      let x := fresh "x" in
      intros x _; cbn in x;
      try match type of x with
          | (_ * option error)%type => let e := fresh "e" in destruct x as [x [e|]]
          | option error => let e := fresh "e" in destruct x as [e|]
          end
  end.

Ltac case_stuck :=
  match goal with
  | |- always _ _ (prog_bind (printResources _) _) _ =>
      apply always_printResources; [intros ps Hps | intros ps Hps]
  | |- context [network.PublicIPAddress_IPAddress ?p] =>
      destruct (network.PublicIPAddress_IPAddress p) eqn:?
  | |- context [buildNICparams ?g ?s ?lb ?n] => destruct (buildNICparams g s lb n) eqn:?
  | |- context [lb_FrontendPort ?lb ?n] => destruct (lb_FrontendPort lb n) eqn:?
  | |- context [eval (deref ?o)] => destruct o eqn:?
  end.

Ltac explore :=
  cbn;
  repeat (first [ take_answer
                | rewrite vm_AdminUsername_built
                | rewrite vm_AdminPassword_built
                | case_stuck ]; cbn).

(** ** The load-balancer definition *)

Lemma main_lb_definitions (g : Globals) :
  always any_answer
    (fun l _ _ => forall definition, In definition (lb_definitions l) ->
                                     two_nat_rules g definition)
    main g.
Proof.
  unfold main, lb_definitions. explore.
  all: intros definition Hin.
  all: rewrite ?flat_map_app in Hin; cbn in Hin.
  all: try (rewrite (flat_map_prints ps) in Hin by (assumption || reflexivity); cbn in Hin).
  all: try contradiction.
  all: destruct Hin as [<- | []].
  all: eexists; split; reflexivity.
Qed.

(** C5.  For every rule name, subscription id and front-end port,
    [buildNATrule] returns a rule with backend port 22, protocol TCP,
    floating IP disabled, idle timeout 4 minutes, the given front-end
    port, and a frontend-IP-configuration reference equal to [buildID]'s
    output for subtype "frontendIPConfigurations" and the frontend
    configuration name; and every load-balancer definition the workflow
    sends carries exactly two such rules, "natRule1" with front-end port
    21 and "natRule2" with front-end port 23. *)
Theorem buildNATrule_fixed_fields :
  (forall (g : Globals) (natRuleName sub : string) (frontEndPort : Z),
      network.InboundNatRule_Name (buildNATrule g natRuleName sub frontEndPort)
        = Some natRuleName /\
      exists format,
        network.InboundNatRule_InboundNatRulePropertiesFormat
          (buildNATrule g natRuleName sub frontEndPort) = Some format /\
        network.InboundNatRulePropertiesFormat_BackendPort format = Some 22 /\
        network.InboundNatRulePropertiesFormat_Protocol format = network.TransportProtocolTCP /\
        network.InboundNatRulePropertiesFormat_EnableFloatingIP format = Some false /\
        network.InboundNatRulePropertiesFormat_IdleTimeoutInMinutes format = Some 4 /\
        network.InboundNatRulePropertiesFormat_FrontendPort format = Some frontEndPort /\
        network.InboundNatRulePropertiesFormat_FrontendIPConfiguration format =
          Some {| network.SubResource_ID :=
                    Some (buildID g sub "frontendIPConfigurations"
                            (frontEndIPConfigName g)) |}) /\
  frontEndIPConfigName declared = "fip" /\
  (forall (W : Type) (h : collaborator W) (g : Globals) (w : W)
          (definition : network.LoadBalancer),
      In definition (lb_definitions (log (run h main g w))) ->
      exists props,
        network.LoadBalancer_LoadBalancerPropertiesFormat definition = Some props /\
        network.LoadBalancerPropertiesFormat_InboundNatRules props =
          Some [ buildNATrule g "natRule1" (subscriptionID g) 21;
                 buildNATrule g "natRule2" (subscriptionID g) 23 ]).
Proof.
  split; [| split; [reflexivity |]].
  - intros g natRuleName sub frontEndPort. split; [reflexivity |].
    eexists. repeat split.
  - intros W h g w definition Hin.
    exact (always_run_any h main _ g (main_lb_definitions g) w definition Hin).
Qed.

Lemma buildNATrule_fixed_fields_witness :
  exists props,
    network.LoadBalancer_LoadBalancerPropertiesFormat (lbParameters declared served_pip)
      = Some props /\
    network.LoadBalancerPropertiesFormat_InboundNatRules props =
      Some [ buildNATrule declared "natRule1" (subscriptionID declared) 21;
             buildNATrule declared "natRule2" (subscriptionID declared) 23 ].
Proof.
  apply (proj2 (proj2 buildNATrule_fixed_fields) unit serving declared tt).
  vm_compute. left. reflexivity.
Defined.

(** ** The package-level variables *)

Lemma main_stores_nothing (g : Globals) :
  always any_answer (fun l _ g' => filter is_store l = [] /\ g' = g) main g.
Proof.
  unfold main. explore.
  all: rewrite ?filter_app; cbn.
  all: try rewrite (filter_prints ps) by (assumption || reflexivity).
  all: split; reflexivity.
Qed.

Lemma createVM_stores_nothing (g : Globals) (vmName : string)
    (subnetID availSetID ipAddress : option string) (lb : network.LoadBalancer)
    (natRule : Z) :
  always any_answer (fun l _ g' => filter is_store l = [] /\ g' = g)
    (createVM vmName subnetID availSetID ipAddress lb natRule) g.
Proof.
  unfold createVM. explore.
  all: split; reflexivity.
Qed.

Lemma init_assigns_once :
  always any_answer
    (fun l o g' =>
       o = Returned tt ->
       (forall v, In v handles -> assignments v l = 1%nat) /\
       assignments var_authorizer l = 0%nat /\
       authorizer g' = None /\
       exists sub a ua,
         subscriptionID g' = sub /\ forall v, clients g' v = configured sub a ua)
    init declared.
Proof.
  unfold init, createClients. cbn.
  intros [a [e|]] _; cbn; [intros; discriminate |].
  intros [sub|] _; cbn; [| intros; discriminate].
  intros commit _. cbn. intros _.
  split; [| split; [reflexivity | split; [reflexivity |]]].
  - intros v Hv.
    repeat (destruct Hv as [<- | Hv]; [reflexivity |]). contradiction.
  - exists sub, a. eexists. split; [reflexivity |]. intros []; reflexivity.
Qed.

Lemma no_store_no_assignment (v : gvar) (l : list event) :
  filter is_store l = [] -> assignments v l = 0%nat.
Proof.
  unfold assignments.
  induction l as [|[r x | s | kind v'] l IH]; simpl; intros H;
    try discriminate; auto.
Qed.

Lemma assignments_app (v : gvar) (l l' : list event) :
  assignments v (l ++ l') = (assignments v l + assignments v l')%nat.
Proof. unfold assignments. now rewrite filter_app, length_app. Qed.

(** C8.  The package-level client handles and the subscription id are
    each assigned exactly once, by [init], before the workflow begins:
    when [init] returns, the log of the whole process holds one
    assignment to each of them, it is [init]'s log followed by [main]'s,
    and [main]'s part holds no store of any kind (the two updates
    inside each handle, its authorizer and its user agent, are in
    [init]'s part as well); every handle then holds the
    subscription id, the authorizer and the user agent that [init] gave
    it; [main] and [createVM] leave the store as they found it, from any
    store.  (The builders are functions
    of the store and return no store.) *)
Theorem package_state_initialized_once :
  forall (W : Type) (h : collaborator W) (w : W),
    out (run h init declared w) = Returned tt ->
    (forall v, In v handles -> assignments v (log (run h program declared w)) = 1%nat) /\
    (exists l,
        log (run h program declared w) = (log (run h init declared w) ++ l)%list /\
        filter is_store l = []) /\
    store_after (run h program declared w) = store_after (run h init declared w) /\
    (exists sub a ua,
        subscriptionID (store_after (run h init declared w)) = sub /\
        forall v, clients (store_after (run h init declared w)) v = configured sub a ua) /\
    (forall g w',
        filter is_store (log (run h main g w')) = [] /\
        store_after (run h main g w') = g) /\
    (forall g w' vmName subnetID availSetID ipAddress lb natRule,
        filter is_store
          (log (run h (createVM vmName subnetID availSetID ipAddress lb natRule) g w')) = [] /\
        store_after (run h (createVM vmName subnetID availSetID ipAddress lb natRule) g w')
          = g).
Proof.
  intros W h w Hboot.
  assert (Hmain : forall g w',
             filter is_store (log (run h main g w')) = [] /\
             store_after (run h main g w') = g).
  { intros g w'. exact (always_run_any h main _ g (main_stores_nothing g) w'). }
  pose proof (always_run_any h init _ declared init_assigns_once w Hboot)
    as (Honce & _ & _ & Hconfigured).
  unfold program. cbn [bind Monad_prog]. rewrite run_bind. cbn zeta.
  rewrite Hboot. cbn [log store_after].
  destruct (Hmain (store_after (run h init declared w)) (world_after (run h init declared w)))
    as [Hquiet Hsame].
  repeat split.
  - intros v Hv. rewrite assignments_app, (Honce v Hv).
    now rewrite (no_store_no_assignment v _ Hquiet).
  - eexists. split; [reflexivity | exact Hquiet].
  - exact Hsame.
  - exact Hconfigured.
  - apply Hmain.
  - apply Hmain.
  - exact (proj1 (always_run_any h _ _ g
                    (createVM_stores_nothing g vmName subnetID availSetID ipAddress lb natRule)
                    w')).
  - exact (proj2 (always_run_any h _ _ g
                    (createVM_stores_nothing g vmName subnetID availSetID ipAddress lb natRule)
                    w')).
Qed.

Lemma package_state_initialized_once_witness :
  assignments (var_client lbClient) (log (run serving program declared tt)) = 1%nat.
Proof.
  apply (proj1 (package_state_initialized_once unit serving tt eq_refl)).
  simpl. auto.
Defined.

(** ** Per-VM orchestration *)

Lemma createVM_requests (g : Globals) (vmName : string)
    (subnetID availSetID ipAddress : option string) (lb : network.LoadBalancer)
    (natRule : Z) (nic : network.Interface) :
  buildNICparams g subnetID lb natRule = Ok nic ->
  always any_answer
    (fun l _ _ =>
       nic_names l = [("nic-" ++ vmName)%string] /\
       forall vm, In vm (vm_definitions l) ->
                  exists nicID, vm = buildVMparams g vmName nicID availSetID)
    (createVM vmName subnetID availSetID ipAddress lb natRule) g.
Proof.
  intros Hnic. unfold createVM, nic_names, vm_definitions. cbn. rewrite Hnic. explore.
  all: rewrite append_empty_r.
  all: split; [reflexivity |].
  all: intros vm Hin; cbn in Hin; try contradiction.
  all: destruct Hin as [<- | []]; eexists; reflexivity.
Qed.

(** C10.  For every VM name, [createVM] creates the NIC under the name
    "nic-" followed by the VM name, and every VM definition it sends is
    [buildVMparams] of the VM name, a NIC id and the availability-set id
    it was given; [buildVMparams] sets the computer name to the VM name
    and the administrator credentials to "notAdmin" and "Pa$$w0rd1975"
    whatever the VM; and the definition is a function of the VM name,
    the NIC id and the availability-set id alone: of the package
    variables it reads only [westus] and [storageAccountName]. *)
Theorem createVM_names_and_credentials :
  (forall (W : Type) (h : collaborator W) (g : Globals) (w : W) (vmName : string)
          (subnetID availSetID ipAddress : option string) (lb : network.LoadBalancer)
          (natRule : Z) (nic : network.Interface),
      buildNICparams g subnetID lb natRule = Ok nic ->
      nic_names (log (run h (createVM vmName subnetID availSetID ipAddress lb natRule) g w))
        = [("nic-" ++ vmName)%string] /\
      forall vm,
        In vm (vm_definitions
                 (log (run h (createVM vmName subnetID availSetID ipAddress lb natRule) g w))) ->
        exists nicID, vm = buildVMparams g vmName nicID availSetID) /\
  (forall (g : Globals) (vmName : string) (nicID availSetID : option string),
      exists props profile,
        compute.VirtualMachine_VirtualMachineProperties
          (buildVMparams g vmName nicID availSetID) = Some props /\
        compute.VirtualMachineProperties_OsProfile props = Some profile /\
        compute.OSProfile_ComputerName profile = Some vmName /\
        compute.OSProfile_AdminUsername profile = Some "notAdmin" /\
        compute.OSProfile_AdminPassword profile = Some "Pa$$w0rd1975") /\
  (forall (g g' : Globals) (vmName : string) (nicID availSetID : option string),
      westus g = westus g' ->
      storageAccountName g = storageAccountName g' ->
      buildVMparams g vmName nicID availSetID = buildVMparams g' vmName nicID availSetID).
Proof.
  split; [| split].
  - intros W h g w vmName subnetID availSetID ipAddress lb natRule nic Hnic.
    exact (always_run_any h _ _ g
             (createVM_requests g vmName subnetID availSetID ipAddress lb natRule nic Hnic) w).
  - intros g vmName nicID availSetID. do 2 eexists. repeat split.
  - intros g g' vmName nicID availSetID Hw Hs. unfold buildVMparams. now rewrite Hw, Hs.
Qed.

Lemma createVM_names_and_credentials_witness :
  nic_names (log (run serving
                    (createVM "Web1" (Some "/subnet") (Some "/availSet") (Some "40.0.0.1")
                       served_lb 0) declared tt))
    = ["nic-Web1"] /\
  buildVMparams declared "Web1" None None
    = buildVMparams (set_subscriptionID "sub123" declared) "Web1" None None.
Proof.
  split.
  - destruct (proj1 createVM_names_and_credentials unit serving declared tt "Web1"
                (Some "/subnet") (Some "/availSet") (Some "40.0.0.1") served_lb 0 _ eq_refl)
      as [Hname _].
    exact Hname.
  - apply (proj2 (proj2 createVM_names_and_credentials)); reflexivity.
Defined.

Lemma createVM_success_path (g : Globals) (vmName : string)
    (subnetID availSetID ipAddress : option string) (lb : network.LoadBalancer)
    (natRule : Z) :
  always succeeded
    (fun _ o _ =>
       ((forall p, o <> Panicked p) <->
        lists_ready lb natRule /\ ipAddress <> None /\ port_ready lb natRule) /\
       (lists_ready lb natRule /\ ipAddress <> None /\ port_ready lb natRule ->
        o = Returned None))
    (createVM vmName subnetID availSetID ipAddress lb natRule) g.
Proof.
  unfold createVM. cbn.
  destruct (buildNICparams g subnetID lb natRule) as [nic|p] eqn:E; cbn.
  - assert (HL : lists_ready lb natRule)
      by (apply (buildNICparams_defined g subnetID); eexists; exact E).
    intros [nic' e] Hs. unfold succeeded in Hs. cbn in Hs. subst e. cbn.
    intros [vm e] Hs. unfold succeeded in Hs. cbn in Hs. subst e. cbn.
    rewrite vm_AdminUsername_built. cbn.
    destruct ipAddress as [address|]; cbn.
    + destruct (lb_FrontendPort lb natRule) as [port|p] eqn:F; cbn.
      * rewrite vm_AdminPassword_built. cbn.
        assert (HP : port_ready lb natRule)
          by (apply lb_FrontendPort_defined; eexists; exact F).
        split; [split |]; intros; try discriminate; auto.
        repeat split; auto; discriminate.
      * assert (HP : ~ port_ready lb natRule).
        { intros HP. destruct HL as (? & ? & ? & _ & _ & _ & _ & Hpos & _).
          destruct (proj2 (lb_FrontendPort_defined lb natRule) (conj Hpos HP)) as [q Hq].
          congruence. }
        split.
        -- split; [intros H; now contradiction (H p) | intros (_ & _ & H); contradiction].
        -- intros (_ & _ & H); contradiction.
    + split.
      * split; [intros H; now contradiction (H NilDereference)
               | intros (_ & H & _); now contradiction H].
      * intros (_ & H & _); now contradiction H.
  - assert (HL : ~ lists_ready lb natRule).
    { intros HL. apply (buildNICparams_defined g subnetID) in HL.
      destruct HL as [nic Hnic]. congruence. }
    split.
    + split; [intros H; now contradiction (H p) | intros (H & _); contradiction].
    + intros (H & _); contradiction.
Qed.

(** C9.  [buildNICparams] and the success path of [createVM] are
    partial.  [buildNICparams] returns (rather than panics) if and only
    if the load balancer's two lists are non-nil, the backend-pool list
    is non-empty and the NAT-rule index is in range.  The OS-profile
    pointers of the VM definition that [createVM] reads are non-nil as
    [buildVMparams] builds them.  And when both of its calls succeed,
    [createVM] runs without a panic if and only if, besides, the
    IP-address pointer is non-nil and the NAT rule at the index has a
    non-nil front-end port; it then returns nil. *)
Theorem createVM_defined_iff :
  (forall (g : Globals) (subnetID : option string) (lb : network.LoadBalancer)
          (natRule : Z),
      (exists nic, buildNICparams g subnetID lb natRule = Ok nic) <->
      lists_ready lb natRule) /\
  (forall (g : Globals) (vmName : string) (nicID availSetID : option string),
      vm_AdminUsername (buildVMparams g vmName nicID availSetID) = Ok "notAdmin" /\
      vm_AdminPassword (buildVMparams g vmName nicID availSetID) = Ok "Pa$$w0rd1975") /\
  (forall (W : Type) (h : collaborator W) (g : Globals) (w : W) (vmName : string)
          (subnetID availSetID ipAddress : option string) (lb : network.LoadBalancer)
          (natRule : Z),
      (forall r w', succeeded r (fst (h r w'))) ->
      ((forall p, out (run h (createVM vmName subnetID availSetID ipAddress lb natRule) g w)
                  <> Panicked p) <->
       lists_ready lb natRule /\ ipAddress <> None /\ port_ready lb natRule) /\
      (lists_ready lb natRule /\ ipAddress <> None /\ port_ready lb natRule ->
       out (run h (createVM vmName subnetID availSetID ipAddress lb natRule) g w)
         = Returned None)).
Proof.
  split; [| split].
  - exact buildNICparams_defined.
  - intros g vmName nicID availSetID. split; reflexivity.
  - intros W h g w vmName subnetID availSetID ipAddress lb natRule Hh.
    exact (always_run succeeded h _ Hh _ g
             (createVM_success_path g vmName subnetID availSetID ipAddress lb natRule) w).
Qed.

Lemma serving_succeeds : forall r w, succeeded r (fst (serving r w)).
Proof. intros [] w; reflexivity. Qed.

Lemma served_lb_lists_ready_0 : lists_ready served_lb 0.
Proof. do 3 eexists. repeat split; try reflexivity; try discriminate; simpl; lia. Qed.

Lemma served_lb_lists_ready_1 : lists_ready served_lb 1.
Proof. do 3 eexists. repeat split; try reflexivity; try discriminate; simpl; lia. Qed.

Lemma served_lb_port_ready_0 : port_ready served_lb 0.
Proof. do 5 eexists. repeat split; reflexivity. Qed.

Lemma served_lb_port_ready_1 : port_ready served_lb 1.
Proof. do 5 eexists. repeat split; reflexivity. Qed.

Lemma createVM_defined_iff_witness :
  out (run serving
         (createVM "Web2" (Some "/subnet") (Some "/availSet") (Some "40.0.0.1") served_lb 1)
         declared tt)
    = Returned None.
Proof.
  apply (proj2 (proj2 createVM_defined_iff) unit serving declared tt "Web2"
           (Some "/subnet") (Some "/availSet") (Some "40.0.0.1") served_lb 1
           serving_succeeds).
  split; [exact served_lb_lists_ready_1 | split; [discriminate | exact served_lb_port_ready_1]].
Defined.

Lemma main_nic_refused (g : Globals) :
  always any_answer
    (fun l o _ =>
       refused is_nic_create l = true ->
       o = Exited 1 /\
       issued is_group_delete l = false /\
       issued is_subnet_create l = true /\
       issued is_availSet_create l = true /\
       (List.length (vm_definitions l) + 1 = List.length (nic_names l))%nat)
    main g.
Proof.
  unfold main, refused, issued, vm_definitions, nic_names. explore.
  all: intros Hrefused; cbn in Hrefused; rewrite ?existsb_app in Hrefused.
  all: try rewrite (existsb_prints ps) in Hrefused by (assumption || reflexivity).
  all: cbn in Hrefused; try discriminate.
  all: repeat split; reflexivity.
Qed.

(** C3.  In [createVM], if the NIC creation fails, the VM creation call
    is not issued, "Create NIC failed" is printed and the error is
    returned to the caller as a value; if the VM creation fails after
    the NIC succeeded, "Create VM failed" is printed and the error is
    returned, with nothing after it.  Neither path issues any other
    call: nothing is rolled back.  In [main], a run in which a NIC
    creation fails has issued the subnet and availability-set creations,
    issues no deletion, has sent one VM definition fewer than NIC
    definitions, and ends with status 1. *)
Theorem createVM_partial_failure :
  forall (W : Type) (h : collaborator W) (g : Globals),
    (forall (w w' : W) (vmName : string) (subnetID availSetID ipAddress : option string)
            (lb : network.LoadBalancer) (natRule : Z) (definition nic : network.Interface)
            (e : error),
        buildNICparams g subnetID lb natRule = Ok definition ->
        h (Interfaces_CreateOrUpdate (clients g interfaceClient) (groupName g)
             ("nic-" ++ vmName) definition) w = ((nic, Some e), w') ->
        run h (createVM vmName subnetID availSetID ipAddress lb natRule) g w =
          mkResult
            [ EvPrint ("Starting to create NIC for '" ++ vmName ++ "' machine" ++ nl);
              EvCall (Interfaces_CreateOrUpdate (clients g interfaceClient) (groupName g)
                        ("nic-" ++ vmName) definition) (nic, Some e);
              EvPrint ("Create NIC failed" ++ nl) ]
            (Returned (Some e)) g w') /\
    (forall (w w' w'' : W) (vmName : string) (subnetID availSetID ipAddress : option string)
            (lb : network.LoadBalancer) (natRule : Z) (definition nic : network.Interface)
            (vm : compute.VirtualMachine) (e : error),
        buildNICparams g subnetID lb natRule = Ok definition ->
        h (Interfaces_CreateOrUpdate (clients g interfaceClient) (groupName g)
             ("nic-" ++ vmName) definition) w = ((nic, None), w') ->
        h (VirtualMachines_CreateOrUpdate (clients g vmClient) (groupName g) vmName
             (buildVMparams g vmName (network.Interface_ID nic) availSetID)) w'
          = ((vm, Some e), w'') ->
        run h (createVM vmName subnetID availSetID ipAddress lb natRule) g w =
          mkResult
            [ EvPrint ("Starting to create NIC for '" ++ vmName ++ "' machine" ++ nl);
              EvCall (Interfaces_CreateOrUpdate (clients g interfaceClient) (groupName g)
                        ("nic-" ++ vmName) definition) (nic, None);
              EvPrint ("NIC created" ++ nl);
              EvPrint ("Starting to create machine '" ++ vmName ++ "'" ++ nl);
              EvCall (VirtualMachines_CreateOrUpdate (clients g vmClient) (groupName g) vmName
                        (buildVMparams g vmName (network.Interface_ID nic) availSetID))
                     (vm, Some e);
              EvPrint ("Create VM failed" ++ nl) ]
            (Returned (Some e)) g w'') /\
    (forall w : W,
        refused is_nic_create (log (run h main g w)) = true ->
        out (run h main g w) = Exited 1 /\
        issued is_group_delete (log (run h main g w)) = false /\
        issued is_subnet_create (log (run h main g w)) = true /\
        issued is_availSet_create (log (run h main g w)) = true /\
        (List.length (vm_definitions (log (run h main g w))) + 1
         = List.length (nic_names (log (run h main g w))))%nat).
Proof.
  intros W h g. split; [| split].
  - intros w w' vmName subnetID availSetID ipAddress lb natRule definition nic e Hdef Hnic.
    unfold createVM. cbn. rewrite Hdef. cbn. rewrite append_empty_r.
    cbn in Hnic. rewrite Hnic. reflexivity.
  - intros w w' w'' vmName subnetID availSetID ipAddress lb natRule definition nic vm e
           Hdef Hnic Hvm.
    unfold createVM. cbn. rewrite Hdef. cbn. rewrite append_empty_r.
    cbn in Hnic. rewrite Hnic. cbn. rewrite Hvm. reflexivity.
  - intros w. exact (always_run_any h main _ g (main_nic_refused g) w).
Qed.

Lemma createVM_partial_failure_witness :
  out (run (refusing is_nic_create quota)
         (createVM "Web1" (Some "/subnet") (Some "/availSet") (Some "40.0.0.1") served_lb 0)
         declared tt) = Returned (Some quota) /\
  out (run (refusing is_vm_create quota)
         (createVM "Web1" (Some "/subnet") (Some "/availSet") (Some "40.0.0.1") served_lb 0)
         declared tt) = Returned (Some quota) /\
  out (run (refusing is_nic_create quota) main declared tt) = Exited 1.
Proof.
  split; [| split].
  - rewrite (proj1 (createVM_partial_failure unit (refusing is_nic_create quota) declared)
               tt tt "Web1" (Some "/subnet") (Some "/availSet") (Some "40.0.0.1")
               served_lb 0 _ _ quota eq_refl eq_refl).
    reflexivity.
  - rewrite (proj1 (proj2 (createVM_partial_failure unit (refusing is_vm_create quota)
                             declared))
               tt tt tt "Web1" (Some "/subnet") (Some "/availSet") (Some "40.0.0.1")
               served_lb 0 _ _ _ quota eq_refl eq_refl eq_refl).
    reflexivity.
  - apply (proj2 (proj2 (createVM_partial_failure unit (refusing is_nic_create quota)
                           declared)) tt).
    reflexivity.
Defined.

(** ** Fatal steps *)

Arguments halts_on_failure : simpl never.
Arguments stopped : simpl never.

Lemma halts_nil {A : Type} (o : outcome A) : halts_on_failure [] o.
Proof. exact I. Qed.

Lemma halts_cons {A : Type} (ev : event) (post : list event) (o : outcome A) :
  (forall e, failed ev = Some e -> stopped e ev post o) ->
  halts_on_failure post o ->
  halts_on_failure (ev :: post) o.
Proof. intros H1 H2. split; assumption. Qed.

Lemma halts_prints {A : Type} (ps l : list event) (o : outcome A) :
  forallb is_print ps = true -> halts_on_failure l o -> halts_on_failure (ps ++ l) o.
Proof.
  induction ps as [|[r x | s | kind v] ps IH]; simpl; intros Hps Hl;
    try discriminate; [exact Hl |].
  apply halts_cons; [intros e He; discriminate | now apply IH].
Qed.

Lemma halts_only_prints {A : Type} (ps : list event) (o : outcome A) :
  forallb is_print ps = true -> halts_on_failure ps o.
Proof.
  intros Hps. rewrite <- (app_nil_r ps). apply halts_prints; [exact Hps | exact I].
Qed.

Lemma halts_split {A : Type} (l : list event) (o : outcome A) :
  halts_on_failure l o ->
  forall pre ev post e,
    l = (pre ++ ev :: post)%list -> failed ev = Some e -> stopped e ev post o.
Proof.
  intros Hl pre. revert l Hl.
  induction pre as [|a pre IH]; intros l Hl ev post e -> Hfail.
  - destruct Hl as [H _]. now apply H.
  - destruct Hl as [_ H]. exact (IH _ H ev post e eq_refl Hfail).
Qed.

Ltac name_step l :=
  match l with
  | ?m :: ?rest =>
      first [ exists m; split; [cbn; auto 20 | reflexivity] | name_step rest ]
  end.

Ltac show_stopped :=
  unfold stopped, failure_line; cbn; rewrite ?append_empty_r;
  split; [reflexivity | split; [reflexivity |]];
  let l := eval cbv delta [step_messages] in step_messages in name_step l.

Ltac show_halts :=
  repeat first
    [ apply halts_nil
    | apply halts_only_prints; assumption
    | apply halts_prints; [assumption |]
    | apply halts_cons;
      [ let e := fresh "e" in
        let He := fresh "He" in
        intros e He; cbn in He; first [discriminate | injection He as <-; show_stopped] |] ].

Lemma main_halts_on_failure (g : Globals) :
  always any_answer (fun l o _ => halts_on_failure l o) main g.
Proof.
  unfold main. explore.
  all: show_halts.
Qed.

Lemma main_pip_refused (g : Globals) :
  always any_answer
    (fun l o _ =>
       refused is_pip_create l = true ->
       issued is_lb_create l = false /\ o = Exited 1)
    main g.
Proof.
  unfold main, refused, issued. explore.
  all: intros Hrefused; cbn in Hrefused; rewrite ?existsb_app in Hrefused.
  all: try rewrite (existsb_prints ps) in Hrefused by (assumption || reflexivity).
  all: cbn in Hrefused; try discriminate.
  all: split; reflexivity.
Qed.

(** C2.  If the public-IP creation call fails, the workflow never issues
    the load-balancer creation call and terminates with exit status 1,
    having printed the single line "CreateOrUpdate Public IP failed:
    <error>" after the call; and in every run of [main], a call that
    comes back with an error is followed by no further call, the output
    ends with the line "<message>: <error>" of a step, and the process
    ends with exit status 1. *)
Theorem main_fails_fast :
  forall (W : Type) (h : collaborator W) (g : Globals) (w : W),
    (forall pre ev post e,
        log (run h main g w) = (pre ++ ev :: post)%list ->
        failed ev = Some e ->
        out (run h main g w) = Exited 1 /\
        calls post = [] /\
        exists message,
          In message step_messages /\
          last post ev = EvPrint (message ++ ": " ++ Error e)) /\
    (refused is_pip_create (log (run h main g w)) = true ->
     issued is_lb_create (log (run h main g w)) = false /\
     out (run h main g w) = Exited 1) /\
    (forall (w1 w2 w3 : W) (group : resources.Group) (pip : network.PublicIPAddress)
            (e : error),
        h (Groups_CreateOrUpdate (clients g groupClient) (groupName g)
             {| resources.Group_Location := Some (westus g) |}) w = ((group, None), w1) ->
        h (Accounts_Create (clients g accountClient) (groupName g) (storageAccountName g)
             (accountParameters g)) w1 = (tt, w2) ->
        h (PublicIPAddresses_CreateOrUpdate (clients g pipClient) (groupName g) (ipName g)
             (pipParameters g)) w2 = ((pip, Some e), w3) ->
        run h main g w =
          mkResult
            [ EvPrint ("Creating resource group" ++ nl);
              EvCall (Groups_CreateOrUpdate (clients g groupClient) (groupName g)
                        {| resources.Group_Location := Some (westus g) |}) (group, None);
              EvPrint ("Starting to create storage account..." ++ nl);
              EvCall (Accounts_Create (clients g accountClient) (groupName g)
                        (storageAccountName g) (accountParameters g)) tt;
              EvPrint ("Starting to create public IP address..." ++ nl);
              EvCall (PublicIPAddresses_CreateOrUpdate (clients g pipClient) (groupName g)
                        (ipName g) (pipParameters g)) (pip, Some e);
              EvPrint ("CreateOrUpdate Public IP failed: " ++ Error e) ]
            (Exited 1) g w3).
Proof.
  intros W h g w. split; [| split].
  - intros pre ev post e Hlog Hfail.
    exact (halts_split _ _ (always_run_any h main _ g (main_halts_on_failure g) w)
             pre ev post e Hlog Hfail).
  - exact (always_run_any h main _ g (main_pip_refused g) w).
  - intros w1 w2 w3 group pip e Hgroup Haccount Hpip.
    unfold main. cbn. rewrite Hgroup. cbn. rewrite Haccount. cbn. rewrite Hpip. cbn.
    now rewrite append_empty_r.
Qed.

Lemma main_fails_fast_witness :
  issued is_lb_create (log (run (refusing is_pip_create quota) main declared tt)) = false /\
  out (run (refusing is_pip_create quota) main declared tt) = Exited 1.
Proof.
  apply (proj1 (proj2 (main_fails_fast unit (refusing is_pip_create quota) declared tt))).
  reflexivity.
Defined.

(** ** The order of the workflow *)

Arguments went_through : simpl never.

Ltac acknowledge x Hpop :=
  let Hok := fresh "Hok" in
  intros x [Hok Hpop]; cbn in x, Hok, Hpop;
  try match type of x with
      | (_ * option error)%type =>
          let e := fresh "e" in
          destruct x as [x e]; cbn in Hok, Hpop; subst e
      | option error => subst x
      end;
  cbn.

Lemma main_goes_through (g : Globals) :
  always acknowledged (fun l o _ => went_through g l o) main g.
Proof.
  unfold main. cbn.
  acknowledge group Hgroup.
  acknowledge started Hstarted. destruct started.
  acknowledge pip Hpip. destruct Hpip as [ip Hip].
  acknowledge lb Hlb. destruct Hlb as [[Hlists0 Hport0] [Hlists1 Hport1]].
  acknowledge vNet HvNet.
  acknowledge created Hcreated.
  acknowledge subnet Hsubnet.
  acknowledge availSet HavailSet.
  acknowledge awaited Hawaited.
  rewrite Hip. cbn.
  destruct (proj2 (buildNICparams_defined g (network.Subnet_ID subnet) lb 0) Hlists0)
    as [definition1 Hdefinition1].
  rewrite Hdefinition1. cbn.
  acknowledge nic1 Hnic1.
  acknowledge vm1 Hvm1.
  rewrite vm_AdminUsername_built. cbn.
  destruct (proj2 (lb_FrontendPort_defined lb 0) (conj (Z.le_refl 0) Hport0))
    as [port0 Hp0].
  rewrite Hp0. cbn. rewrite vm_AdminPassword_built. cbn.
  destruct (proj2 (buildNICparams_defined g (network.Subnet_ID subnet) lb 1) Hlists1)
    as [definition2 Hdefinition2].
  rewrite Hdefinition2. cbn.
  acknowledge nic2 Hnic2.
  acknowledge vm2 Hvm2.
  rewrite vm_AdminUsername_built. cbn.
  destruct (proj2 (lb_FrontendPort_defined lb 1) (conj Z.le_0_1 Hport1))
    as [port1 Hp1].
  rewrite Hp1. cbn. rewrite vm_AdminPassword_built. cbn.
  acknowledge listing Hlisting. destruct Hlisting as [members [Hvalue Hlisted]].
  rewrite Hvalue. cbn.
  apply always_printResources_listed; [exact Hlisted |].
  intros ps Hps. cbn.
  acknowledge input Hinput.
  acknowledge deleted Hdeleted.
  unfold went_through.
  exists (mkAcknowledgements group pip lb vNet created subnet availSet definition1 nic1 vm1
            definition2 nic2 vm2 listing input).
  cbn.
  split; [exact Hdefinition1 | split; [exact Hdefinition2 | split; [| reflexivity]]].
  unfold calls. cbn. rewrite filter_app.
  rewrite (filter_prints ps Hps) by reflexivity.
  cbn. rewrite !append_empty_r. reflexivity.
Qed.

Lemma serving_acknowledges : forall r w, acknowledged r (fst (serving r w)).
Proof.
  intros [] w; (split; [reflexivity |]); cbn; try exact I.
  - exists "40.0.0.1". reflexivity.
  - split; split.
    + exact served_lb_lists_ready_0.
    + exact served_lb_port_ready_0.
    + exact served_lb_lists_ready_1.
    + exact served_lb_port_ready_1.
  - eexists. split; [reflexivity |].
    repeat constructor; discriminate.
Qed.

Lemma hollow_succeeds : forall r w, succeeded r (fst (hollow r w)).
Proof. intros [] w; reflexivity. Qed.

(** C1, as amended.  When every remote call succeeds and hands back the
    objects the workflow reads from (the public IP with its address, the
    load balancer with a first backend pool and NAT rules 0 and 1 with
    their front-end ports, the listing with its members' names and
    types), the workflow issues its calls in exactly the order of
    [provisioning]: create resource group; start storage account; create
    public IP; create load balancer; create virtual network, then
    subnet, then re-fetch the subnet; create availability set; await
    storage account; NIC and VM #1; NIC and VM #2; list resources; read
    the input line; delete the resource group.  VM #1's NIC is built
    with NAT-rule index 0 and VM #2's with index 1, and each definition
    sent refers to what an earlier call in the list was answered with:
    the load balancer to the returned public IP, the NICs to the
    re-fetched subnet and the returned load balancer, the VMs to the
    returned NIC and availability set. *)
Theorem main_order_when_acknowledged :
  forall (W : Type) (h : collaborator W) (g : Globals) (w : W),
    (forall r w', acknowledged r (fst (h r w'))) ->
    exists a : acknowledgements,
      buildNICparams g (network.Subnet_ID (ack_subnet a)) (ack_lb a) 0
        = Ok (nic1_definition a) /\
      buildNICparams g (network.Subnet_ID (ack_subnet a)) (ack_lb a) 1
        = Ok (nic2_definition a) /\
      calls (log (run h main g w)) = provisioning g a /\
      out (run h main g w) = Returned tt.
Proof.
  intros W h g w Hh.
  exact (always_run acknowledged h main Hh _ g (main_goes_through g) w).
Qed.

Lemma main_order_when_acknowledged_witness :
  exists a : acknowledgements,
    buildNICparams declared (network.Subnet_ID (ack_subnet a)) (ack_lb a) 0
      = Ok (nic1_definition a) /\
    buildNICparams declared (network.Subnet_ID (ack_subnet a)) (ack_lb a) 1
      = Ok (nic2_definition a) /\
    calls (log (run serving main declared tt)) = provisioning declared a /\
    out (run serving main declared tt) = Returned tt.
Proof.
  exact (main_order_when_acknowledged unit serving declared tt serving_acknowledges).
Defined.

(** C1, as stated, fails: against a mock that reports success on every
    call and hands back empty objects, [main] panics on a nil pointer
    when it reads the public IP's address for VM #1, after the storage
    account was awaited; no network interface or VM is created, nothing
    is listed or deleted, and the nine calls issued are not the calls of
    the twelve steps. *)
Lemma main_order_counterexample :
  (forall r w, succeeded r (fst (hollow r w))) /\
  out (run hollow main declared tt) = Panicked NilDereference /\
  List.length (calls (log (run hollow main declared tt))) = 9%nat /\
  issued is_nic_create (log (run hollow main declared tt)) = false /\
  issued is_group_delete (log (run hollow main declared tt)) = false /\
  ~ (exists a : acknowledgements,
        calls (log (run hollow main declared tt)) = provisioning declared a /\
        out (run hollow main declared tt) = Returned tt).
Proof.
  split; [exact hollow_succeeds |].
  repeat split; try reflexivity.
  intros (a & _ & Hout). vm_compute in Hout. discriminate.
Qed.

(** ** Sample evaluations *)

Example Sprintf_two_strings :
  Sprintf "%s: %s" [Str "Get Subnet failed"; Str "timeout"] = "Get Subnet failed: timeout".
Proof. reflexivity. Qed.

Example Sprintf_port : Sprintf "-p %v" [Int32 21] = "-p 21".
Proof. reflexivity. Qed.

Example buildID_probe :
  buildID declared "sub123" "probes" "probe" =
    "/subscriptions/sub123/resourceGroups/your-azure-sample-group/providers/Microsoft.Network/loadBalancers/lb/probes/probe".
Proof. reflexivity. Qed.

(** A negative [int] is not an index: the slice read panics. *)
Example buildNICparams_negative_index :
  buildNICparams declared (Some "/subnet") served_lb (-1) = Panics IndexOutOfRange.
Proof. reflexivity. Qed.

Example buildNICparams_second_rule :
  exists nic, buildNICparams declared (Some "/subnet") served_lb 1 = Ok nic.
Proof. eexists. reflexivity. Qed.

(** The whole process against the serving collaborator: exit status 0,
    and the package-level [authorizer] is still nil, since [init] fills
    a local variable of the same name. *)
Example program_runs_to_completion :
  out (run serving program declared tt) = Returned tt /\
  authorizer (store_after (run serving program declared tt)) = None /\
  subscriptionID (store_after (run serving program declared tt)) = "sub123".
Proof. repeat split; reflexivity. Qed.

Example connect_message_of_second_vm :
  In (EvPrint ("Now you can connect to 'Web2' via 'ssh notAdmin@40.0.0.1 -p 23' with password 'Pa$$w0rd1975'" ++ nl))
     (log (run serving main declared tt)).
Proof. vm_compute. tauto. Qed.

(** * Further properties *)

Arguments decimal : simpl never.

(** ** Strings *)

Lemma append_cancel_l (a x y : string) : (a ++ x)%string = (a ++ y)%string -> x = y.
Proof.
  induction a as [|c a IH]; simpl; intros H; [exact H |].
  injection H as H. now apply IH.
Qed.

Lemma append_length (a b : string) :
  String.length (a ++ b) = (String.length a + String.length b)%nat.
Proof. induction a as [|c a IH]; simpl; [reflexivity | now rewrite IH]. Qed.

Lemma append_cancel_r (x y b : string) : (x ++ b)%string = (y ++ b)%string -> x = y.
Proof.
  revert y. induction x as [|c x IH]; intros [|d y] H; simpl in H.
  - reflexivity.
  - apply (f_equal String.length) in H. simpl in H. rewrite append_length in H. lia.
  - apply (f_equal String.length) in H. simpl in H. rewrite append_length in H. lia.
  - injection H as -> H. f_equal. now apply IH.
Qed.

Lemma buildVhdURI_shape (storageAccount vmName : string) :
  buildVhdURI storageAccount vmName =
    ("https://" ++ (storageAccount ++ (".blob.core.windows.net/golangcontainer/"
                                        ++ (vmName ++ ".vhd"))))%string.
Proof. reflexivity. Qed.

Lemma buildID_shape (g : Globals) (sub subType name : string) :
  buildID g sub subType name =
    ("/subscriptions/" ++ (sub ++ ("/resourceGroups/" ++ (groupName g
       ++ ("/providers/Microsoft.Network/loadBalancers/" ++ (loadBalancerName g
       ++ ("/" ++ (subType ++ ("/" ++ name)))))))))%string.
Proof. unfold buildID. cbn. now rewrite append_empty_r. Qed.

(** X1.  Two VM names that yield the same OS-disk URI in the same
    storage account are the same name, and two child names that yield the
    same [buildID] identifier under the same subscription and sub-resource
    type are the same name: distinct VMs never share a disk blob, and
    distinct children of one kind never share a predicted identifier. *)
Theorem names_are_recoverable :
  (forall storageAccount vmName vmName' : string,
      buildVhdURI storageAccount vmName = buildVhdURI storageAccount vmName' ->
      vmName = vmName') /\
  (forall (g : Globals) (sub subType name name' : string),
      buildID g sub subType name = buildID g sub subType name' ->
      name = name').
Proof.
  split.
  - intros storageAccount vmName vmName' H. rewrite !buildVhdURI_shape in H.
    do 3 apply append_cancel_l in H. now apply append_cancel_r in H.
  - intros g sub subType name name' H. rewrite !buildID_shape in H.
    now do 9 apply append_cancel_l in H.
Qed.

Lemma names_are_recoverable_witness : "Web1" = "Web1".
Proof.
  apply (proj1 names_are_recoverable "golangrocksonazure" "Web1" "Web1"). reflexivity.
Defined.

(** ** Which panic [buildNICparams] raises *)

Ltac nic_cases :=
  repeat match goal with
         | H : _ \/ _ |- _ => destruct H
         | H : exists _, _ |- _ => destruct H
         | H : _ /\ _ |- _ => destruct H
         end;
  try discriminate; try congruence; eauto 10.

(** X2.  [buildNICparams] reads the backend pool before the NAT rule.
    It panics with a nil dereference exactly when the load balancer has
    no properties block, or no backend-pool list, or a first pool but no
    NAT-rule list; it panics with an index out of range exactly when the
    backend-pool list is empty, or there is a first pool and the index
    is outside the NAT-rule list; so an empty pool list is reported even
    when the NAT-rule list is nil. *)
Theorem buildNICparams_panics :
  forall (g : Globals) (subnetID : option string) (lb : network.LoadBalancer)
         (natRule : Z),
    (buildNICparams g subnetID lb natRule = Panics NilDereference <->
     network.LoadBalancer_LoadBalancerPropertiesFormat lb = None \/
     exists props,
       network.LoadBalancer_LoadBalancerPropertiesFormat lb = Some props /\
       (network.LoadBalancerPropertiesFormat_BackendAddressPools props = None \/
        (exists pool pools,
            network.LoadBalancerPropertiesFormat_BackendAddressPools props
              = Some (pool :: pools)) /\
        network.LoadBalancerPropertiesFormat_InboundNatRules props = None)) /\
    (buildNICparams g subnetID lb natRule = Panics IndexOutOfRange <->
     exists props,
       network.LoadBalancer_LoadBalancerPropertiesFormat lb = Some props /\
       (network.LoadBalancerPropertiesFormat_BackendAddressPools props = Some [] \/
        exists pool pools rules,
          network.LoadBalancerPropertiesFormat_BackendAddressPools props
            = Some (pool :: pools) /\
          network.LoadBalancerPropertiesFormat_InboundNatRules props = Some rules /\
          ~ 0 <= natRule < Z.of_nat (List.length rules))).
Proof.
  intros g subnetID lb natRule.
  unfold buildNICparams, network.LoadBalancer_BackendAddressPools,
    network.LoadBalancer_InboundNatRules, promoted.
  destruct (network.LoadBalancer_LoadBalancerPropertiesFormat lb) as [props|] eqn:E1; cbn.
  2: { split; (split; intros H); nic_cases. }
  destruct (network.LoadBalancerPropertiesFormat_BackendAddressPools props)
    as [[|pool pools]|] eqn:E2; cbn.
  - change (index (@nil network.BackendAddressPool) 0) with
      (@Panics network.BackendAddressPool IndexOutOfRange). cbn.
    split; (split; intros H); nic_cases.
  - change (index (pool :: pools) 0) with (Ok pool). cbn.
    destruct (network.LoadBalancerPropertiesFormat_InboundNatRules props)
      as [rules|] eqn:E3; cbn.
    + destruct (index rules natRule) as [rule|p] eqn:E; cbn.
      * assert (Hin : 0 <= natRule < Z.of_nat (List.length rules))
          by (apply index_in_range; eexists; exact E).
        split; (split; intros H); nic_cases.
        exfalso.
        match goal with
        | Hn : ~ 0 <= natRule < Z.of_nat (List.length ?rs) |- _ =>
            assert (rs = rules) by congruence; subst rs; apply Hn; lia
        end.
      * assert (Hout : ~ 0 <= natRule < Z.of_nat (List.length rules)).
        { intros Hin. apply index_in_range in Hin. destruct Hin as [a Ha]. congruence. }
        assert (p = IndexOutOfRange).
        { unfold index in E. destruct (natRule <? 0); [congruence |].
          destruct (nth_error rules (Z.to_nat natRule)); congruence. }
        subst p.
        split; (split; intros H); nic_cases.
    + split; (split; intros H); nic_cases.
  - split; (split; intros H); nic_cases.
Qed.

(** ** The listing loop *)

Lemma printResources_cons (r : resources.GenericResource)
    (rest : list resources.GenericResource) :
  printResources (r :: rest) =
    (name <- eval (deref (resources.GenericResource_Name r)) ;;
     type <- eval (deref (resources.GenericResource_Type r)) ;;
     Printf ("----------------" ++ nl ++ "Name: %s" ++ nl ++ "Type: %s" ++ nl)
       [Str name; Str type] ;;
     printResources rest).
Proof. reflexivity. Qed.

(** X3.  The listing loop issues no call and no store: it prints the
    three lines of each resource in order and returns, or, at the first
    resource whose name or type is nil, panics with a nil dereference
    having printed the lines of the resources before it only. *)
Theorem printResources_prints_until_nil :
  forall (W : Type) (h : collaborator W) (l : list resources.GenericResource)
         (g : Globals) (w : W),
    log (run h (printResources l) g w) = listing_lines l /\
    store_after (run h (printResources l) g w) = g /\
    world_after (run h (printResources l) g w) = w /\
    (Forall listed l ->
     out (run h (printResources l) g w) = Returned tt /\
     List.length (log (run h (printResources l) g w)) = List.length l) /\
    (~ Forall listed l -> out (run h (printResources l) g w) = Panicked NilDereference).
Proof.
  intros W h l g w. induction l as [|r rest IH].
  - cbn. repeat split; auto. intros H. contradiction H. constructor.
  - rewrite printResources_cons. cbn.
    destruct (resources.GenericResource_Name r) as [name|] eqn:En; cbn.
    + destruct (resources.GenericResource_Type r) as [type|] eqn:Et; cbn.
      * destruct IH as (Hlog & Hstore & Hworld & Hok & Hbad).
        unfold resource_lines. cbn. rewrite Hlog.
        split; [reflexivity |]. split; [exact Hstore |]. split; [exact Hworld |].
        split.
        -- intros Hall. inversion Hall; subst.
           split; [now apply Hok |]. cbn. f_equal. rewrite <- Hlog. now apply Hok.
        -- intros Hnot. apply Hbad. intros Hrest. apply Hnot. constructor; [| exact Hrest].
           split; congruence.
      * split; [reflexivity |]. split; [reflexivity |]. split; [reflexivity |]. split.
        -- intros Hall. inversion Hall as [|? ? [_ Ht] _]; subst. congruence.
        -- reflexivity.
    + split; [reflexivity |]. split; [reflexivity |]. split; [reflexivity |]. split.
      * intros Hall. inversion Hall as [|? ? [Hn _] _]; subst. congruence.
      * reflexivity.
Qed.

Lemma printResources_prints_until_nil_witness :
  out (run serving
         (printResources [ {| resources.GenericResource_Name := Some "lb";
                              resources.GenericResource_Type := Some "t" |} ])
         declared tt) = Returned tt /\
  out (run serving
         (printResources [ {| resources.GenericResource_Name := Some "lb";
                              resources.GenericResource_Type := None |} ])
         declared tt) = Panicked NilDereference.
Proof.
  split.
  - apply (printResources_prints_until_nil unit serving _ declared tt).
    repeat constructor; discriminate.
  - apply (printResources_prints_until_nil unit serving _ declared tt).
    intros H. inversion H as [|? ? [_ Ht] _]. now apply Ht.
Defined.

(** ** [onErrorFail] in sequence *)

(** X4.  With a nil error [onErrorFail] prints nothing and the program
    goes on as if it were not there; with a non-nil error it prints
    "<message>: <error>" without a newline and ends the process with
    status 1, so nothing that follows it runs: no output, no call, no
    store. *)
Theorem onErrorFail_guards :
  forall (W A : Type) (h : collaborator W) (message : string) (next : prog A)
         (g : Globals) (w : W),
    run h (onErrorFail None message ;; next) g w = run h next g w /\
    forall e : error,
      run h (onErrorFail (Some e) message ;; next) g w =
        mkResult [EvPrint (message ++ ": " ++ Error e)] (Exited 1) g w.
Proof.
  intros W A h message next g w. split.
  - reflexivity.
  - intros e. cbn. now rewrite append_empty_r.
Qed.

(** ** Runs of [createVM] *)

Lemma createVM_outcomes (g : Globals) (vmName : string)
    (subnetID availSetID ipAddress : option string) (lb : network.LoadBalancer)
    (natRule : Z) :
  always any_answer
    (fun l o _ =>
       (forall code, o <> Exited code) /\
       (exists n, operations l = firstn n createVM_script) /\
       (o = Returned None -> operations l = createVM_script) /\
       (refused every_call l = true <-> exists e, o = Returned (Some e)) /\
       (issued is_vm_create l = true -> refused is_nic_create l = false))
    (createVM vmName subnetID availSetID ipAddress lb natRule) g.
Proof.
  unfold createVM, operations, refused, issued. explore.
  all: split; [intros code; discriminate |].
  all: split; [first [exists 0%nat; reflexivity | exists 1%nat; reflexivity
                     | exists 2%nat; reflexivity] |].
  all: split; [first [reflexivity | intros; discriminate] |].
  all: split; [| first [reflexivity | intros; discriminate]].
  all: split; intros H; try discriminate; try (destruct H; discriminate); eauto.
Qed.

(** X5.  [createVM] never ends the process itself: it returns or
    panics.  In every run its calls are a prefix of NIC creation then VM
    creation; the VM creation is issued only after a NIC creation that
    succeeded; it returns an error exactly when one of its calls came
    back with one; and it returns nil only after both calls. *)
Theorem createVM_returns_its_errors :
  forall (W : Type) (h : collaborator W) (g : Globals) (w : W) (vmName : string)
         (subnetID availSetID ipAddress : option string) (lb : network.LoadBalancer)
         (natRule : Z),
    (forall code,
        out (run h (createVM vmName subnetID availSetID ipAddress lb natRule) g w)
        <> Exited code) /\
    (exists n,
        operations (log (run h (createVM vmName subnetID availSetID ipAddress lb natRule) g w))
        = firstn n createVM_script) /\
    (out (run h (createVM vmName subnetID availSetID ipAddress lb natRule) g w)
     = Returned None ->
     operations (log (run h (createVM vmName subnetID availSetID ipAddress lb natRule) g w))
     = createVM_script) /\
    (refused every_call
       (log (run h (createVM vmName subnetID availSetID ipAddress lb natRule) g w)) = true <->
     exists e,
       out (run h (createVM vmName subnetID availSetID ipAddress lb natRule) g w)
       = Returned (Some e)) /\
    (issued is_vm_create
       (log (run h (createVM vmName subnetID availSetID ipAddress lb natRule) g w)) = true ->
     refused is_nic_create
       (log (run h (createVM vmName subnetID availSetID ipAddress lb natRule) g w)) = false).
Proof.
  intros W h g w vmName subnetID availSetID ipAddress lb natRule.
  exact (always_run_any h _ _ g
           (createVM_outcomes g vmName subnetID availSetID ipAddress lb natRule) w).
Qed.

Lemma createVM_returns_its_errors_witness :
  operations
    (log (run serving
            (createVM "Web1" (Some "/subnet") (Some "/availSet") (Some "40.0.0.1") served_lb 0)
            declared tt))
  = createVM_script.
Proof.
  apply (proj1 (proj2 (proj2 (createVM_returns_its_errors unit serving declared tt "Web1"
                                (Some "/subnet") (Some "/availSet") (Some "40.0.0.1")
                                served_lb 0)))).
  reflexivity.
Defined.

(** X6.  The success path of [createVM], event by event: when the NIC
    definition can be built, both creations succeed, the IP-address
    pointer is non-nil and the NAT rule at the index has a front-end
    port, [createVM] creates the NIC named "nic-<vm>", then the VM whose
    definition refers to the id of the NIC the service returned, and
    closes with the line that tells how to connect: user "notAdmin", the
    address, the rule's front-end port in decimal, and the password in
    clear. *)
Theorem createVM_success_run :
  forall (W : Type) (h : collaborator W) (g : Globals) (w w' w'' : W) (vmName : string)
         (subnetID availSetID : option string) (address : string)
         (lb : network.LoadBalancer) (natRule port : Z)
         (definition nic : network.Interface) (vm : compute.VirtualMachine),
    buildNICparams g subnetID lb natRule = Ok definition ->
    lb_FrontendPort lb natRule = Ok port ->
    h (Interfaces_CreateOrUpdate (clients g interfaceClient) (groupName g)
         ("nic-" ++ vmName) definition) w = ((nic, None), w') ->
    h (VirtualMachines_CreateOrUpdate (clients g vmClient) (groupName g) vmName
         (buildVMparams g vmName (network.Interface_ID nic) availSetID)) w'
      = ((vm, None), w'') ->
    run h (createVM vmName subnetID availSetID (Some address) lb natRule) g w =
      mkResult
        [ EvPrint ("Starting to create NIC for '" ++ vmName ++ "' machine" ++ nl);
          EvCall (Interfaces_CreateOrUpdate (clients g interfaceClient) (groupName g)
                    ("nic-" ++ vmName) definition) (nic, None);
          EvPrint ("NIC created" ++ nl);
          EvPrint ("Starting to create machine '" ++ vmName ++ "'" ++ nl);
          EvCall (VirtualMachines_CreateOrUpdate (clients g vmClient) (groupName g) vmName
                    (buildVMparams g vmName (network.Interface_ID nic) availSetID))
                 (vm, None);
          EvPrint ("VM created" ++ nl);
          EvPrint ("Now you can connect to '" ++ vmName ++ "' via 'ssh notAdmin@" ++ address
                     ++ " -p " ++ decimal port ++ "' with password 'Pa$$w0rd1975'" ++ nl) ]
        (Returned None) g w''.
Proof.
  intros W h g w w' w'' vmName subnetID availSetID address lb natRule port definition nic vm
         Hdef Hport Hnic Hvm.
  unfold createVM. cbn. rewrite Hdef. cbn. rewrite append_empty_r.
  cbn in Hnic. rewrite Hnic. cbn. rewrite Hvm. cbn.
  rewrite vm_AdminUsername_built. cbn. rewrite Hport. cbn.
  rewrite vm_AdminPassword_built. cbn.
  reflexivity.
Qed.

Lemma createVM_success_run_witness :
  In (EvPrint ("Now you can connect to 'Web2' via 'ssh notAdmin@40.0.0.1 -p 23' with password 'Pa$$w0rd1975'" ++ nl))
     (log (run serving
             (createVM "Web2" (Some "/subnet") (Some "/availSet") (Some "40.0.0.1")
                served_lb 1) declared tt)).
Proof.
  rewrite (createVM_success_run unit serving declared tt tt tt "Web2" (Some "/subnet")
             (Some "/availSet") "40.0.0.1" served_lb 1 23 _ _ _
             eq_refl eq_refl eq_refl eq_refl).
  vm_compute. tauto.
Defined.

Lemma createVM_late_panic (g : Globals) (vmName : string)
    (subnetID availSetID ipAddress : option string) (lb : network.LoadBalancer)
    (natRule : Z) :
  lists_ready lb natRule ->
  ipAddress = None \/ ~ port_ready lb natRule ->
  always succeeded
    (fun l o _ => (exists p, o = Panicked p) /\ operations l = createVM_script)
    (createVM vmName subnetID availSetID ipAddress lb natRule) g.
Proof.
  intros Hlists Hbad. unfold createVM, operations. cbn.
  destruct (proj2 (buildNICparams_defined g subnetID lb natRule) Hlists) as [nic Hnic].
  rewrite Hnic. cbn.
  intros [nic' e] Hs. unfold succeeded in Hs. cbn in Hs. subst e. cbn.
  intros [vm e] Hs. unfold succeeded in Hs. cbn in Hs. subst e. cbn.
  rewrite vm_AdminUsername_built. cbn.
  destruct ipAddress as [address|]; cbn.
  - destruct Hbad as [Hnil | Hport]; [discriminate |].
    destruct (lb_FrontendPort lb natRule) as [port|p] eqn:F; cbn.
    + contradiction Hport. apply lb_FrontendPort_defined. eexists. exact F.
    + split; [eexists |]; reflexivity.
  - split; [eexists |]; reflexivity.
Qed.

(** X7.  When [createVM] panics.  If the load balancer lacks a list, a
    first backend pool or a NAT rule at the index, it panics before any
    call: only the opening line is printed and nothing is created.  If
    the load balancer has them but the IP-address pointer is nil or the
    rule has no front-end port, and the two creations succeed, it panics
    only when it builds the closing message: the NIC and the VM have
    been created by then. *)
Theorem createVM_panic_points :
  forall (W : Type) (h : collaborator W) (g : Globals) (w : W) (vmName : string)
         (subnetID availSetID ipAddress : option string) (lb : network.LoadBalancer)
         (natRule : Z),
    (~ lists_ready lb natRule ->
     exists p,
       run h (createVM vmName subnetID availSetID ipAddress lb natRule) g w =
         mkResult [ EvPrint ("Starting to create NIC for '" ++ vmName ++ "' machine" ++ nl) ]
                  (Panicked p) g w) /\
    ((forall r w', succeeded r (fst (h r w'))) ->
     lists_ready lb natRule ->
     ipAddress = None \/ ~ port_ready lb natRule ->
     (exists p,
         out (run h (createVM vmName subnetID availSetID ipAddress lb natRule) g w)
         = Panicked p) /\
     operations (log (run h (createVM vmName subnetID availSetID ipAddress lb natRule) g w))
     = createVM_script).
Proof.
  intros W h g w vmName subnetID availSetID ipAddress lb natRule. split.
  - intros Hnot. unfold createVM. cbn.
    destruct (buildNICparams g subnetID lb natRule) as [nic|p] eqn:E; cbn.
    + contradiction Hnot. apply (buildNICparams_defined g subnetID). eexists. exact E.
    + exists p. reflexivity.
  - intros Hh Hlists Hbad.
    exact (always_run succeeded h _ Hh _ g
             (createVM_late_panic g vmName subnetID availSetID ipAddress lb natRule
                Hlists Hbad) w).
Qed.

Lemma hollow_lb_not_ready : ~ lists_ready (network.mkLoadBalancer None None None) 0.
Proof. intros (props & pools & rules & H & _). discriminate. Qed.

Lemma createVM_panic_points_witness :
  (exists p,
      run serving (createVM "Web1" None None None (network.mkLoadBalancer None None None) 0)
        declared tt =
        mkResult [ EvPrint ("Starting to create NIC for '" ++ "Web1" ++ "' machine" ++ nl) ]
                 (Panicked p) declared tt) /\
  operations
    (log (run serving (createVM "Web1" (Some "/subnet") (Some "/availSet") None served_lb 0)
            declared tt))
  = createVM_script.
Proof.
  split.
  - apply (proj1 (createVM_panic_points unit serving declared tt "Web1" None None None
                    (network.mkLoadBalancer None None None) 0)).
    exact hollow_lb_not_ready.
  - apply (proj2 (createVM_panic_points unit serving declared tt "Web1" (Some "/subnet")
                    (Some "/availSet") None served_lb 0)).
    + exact serving_succeeds.
    + exact served_lb_lists_ready_0.
    + left. reflexivity.
Defined.

(** ** Start-up *)

Lemma init_store (W : Type) (h : collaborator W) (g : Globals) (w w1 w2 w3 : W)
    (a : option autorest.BearerAuthorizer) (sub commit : string) :
  h (GetAuthorizer azure.PublicCloud) w = ((a, None), w1) ->
  h (GetEnvVarOrExit "AZURE_SUBSCRIPTION_ID") w1 = (Some sub, w2) ->
  h GetCommit w2 = (commit, w3) ->
  out (run h init g w) = Returned tt /\
  world_after (run h init g w) = w3 /\
  subscriptionID (store_after (run h init g w)) = sub /\
  (forall v, clients (store_after (run h init g w)) v
             = configured sub a ("sample/0006/" ++ commit)) /\
  authorizer (store_after (run h init g w)) = authorizer g /\
  same_names (store_after (run h init g w)) g /\
  operations (log (run h init g w))
    = [ "utils.GetAuthorizer"; "utils.GetEnvVarOrExit"; "utils.GetCommit" ].
Proof.
  intros Hauth Henv Hcommit. unfold init, createClients. cbn.
  rewrite Hauth. cbn. rewrite Henv. cbn. rewrite Hcommit. cbn.
  rewrite append_empty_r.
  repeat split.
  intros []; reflexivity.
Qed.

(** X8.  What [init] leaves behind.  When the authorizer is obtained and
    the subscription id is in the environment, [init] returns having
    issued its three helper calls and no other; the package-level
    [subscriptionID] is the environment's value; each of the nine client
    handles holds that subscription id, the authorizer that
    [GetAuthorizer] returned and the user agent "sample/0006/<commit>";
    the name variables are unchanged; and the package-level [authorizer]
    is what it was (nil at start-up), because [init] declares a local
    variable of that name. *)
Theorem init_configures_every_handle :
  forall (W : Type) (h : collaborator W) (g : Globals) (w w1 w2 w3 : W)
         (a : option autorest.BearerAuthorizer) (sub commit : string),
    h (GetAuthorizer azure.PublicCloud) w = ((a, None), w1) ->
    h (GetEnvVarOrExit "AZURE_SUBSCRIPTION_ID") w1 = (Some sub, w2) ->
    h GetCommit w2 = (commit, w3) ->
    out (run h init g w) = Returned tt /\
    world_after (run h init g w) = w3 /\
    subscriptionID (store_after (run h init g w)) = sub /\
    (forall v, clients (store_after (run h init g w)) v
               = configured sub a ("sample/0006/" ++ commit)) /\
    authorizer (store_after (run h init g w)) = authorizer g /\
    same_names (store_after (run h init g w)) g /\
    operations (log (run h init g w))
      = [ "utils.GetAuthorizer"; "utils.GetEnvVarOrExit"; "utils.GetCommit" ].
Proof.
  intros W h g w w1 w2 w3 a sub commit Hauth Henv Hcommit.
  exact (init_store W h g w w1 w2 w3 a sub commit Hauth Henv Hcommit).
Qed.

Lemma init_configures_every_handle_witness :
  clients (store_after (run serving init declared tt)) vmClient
    = configured "sub123" (Some (autorest.mkBearerAuthorizer "token")) "sample/0006/c0ffee" /\
  authorizer (store_after (run serving init declared tt)) = None.
Proof.
  destruct (init_configures_every_handle unit serving declared tt tt tt tt _ _ _
              eq_refl eq_refl eq_refl) as (_ & _ & _ & Hclients & Hauthorizer & _).
  split; [apply Hclients | exact Hauthorizer].
Defined.

(** X9.  A start-up that fails never reaches [main].  If [GetAuthorizer]
    returns an error, the process prints "GetAuthorizer failed: <error>"
    and ends with status 1 having issued that one call; if the
    subscription id is missing and the helper ends the process, only the
    two helper calls have been issued.  In both cases no package
    variable has been written and no SDK client has been created. *)
Theorem failed_startup_stops_the_process :
  forall (W : Type) (h : collaborator W) (g : Globals) (w w1 : W)
         (a : option autorest.BearerAuthorizer),
    (forall e : error,
        h (GetAuthorizer azure.PublicCloud) w = ((a, Some e), w1) ->
        run h program g w =
          mkResult [ EvCall (GetAuthorizer azure.PublicCloud) (a, Some e);
                     EvPrint ("GetAuthorizer failed: " ++ Error e) ]
                   (Exited 1) g w1) /\
    (forall w2 : W,
        h (GetAuthorizer azure.PublicCloud) w = ((a, None), w1) ->
        h (GetEnvVarOrExit "AZURE_SUBSCRIPTION_ID") w1 = (None, w2) ->
        (exists code, out (run h program g w) = Exited code) /\
        operations (log (run h program g w))
          = [ "utils.GetAuthorizer"; "utils.GetEnvVarOrExit" ] /\
        filter is_store (log (run h program g w)) = [] /\
        store_after (run h program g w) = g).
Proof.
  intros W h g w w1 a. split.
  - intros e Hauth. unfold program. cbn [bind Monad_prog]. rewrite run_bind.
    unfold init. cbn. rewrite Hauth. cbn. now rewrite append_empty_r.
  - intros w2 Hauth Henv. unfold program. cbn [bind Monad_prog]. rewrite run_bind.
    unfold init. cbn. rewrite Hauth. cbn. rewrite Henv. cbn.
    repeat split. eexists. reflexivity.
Qed.

Lemma failed_startup_stops_the_process_witness :
  out (run (refusing (fun r => match r with GetAuthorizer _ => true | _ => false end) quota)
         program declared tt) = Exited 1.
Proof.
  rewrite (proj1 (failed_startup_stops_the_process unit _ declared tt tt _) quota eq_refl).
  reflexivity.
Defined.

(** ** Every run of [main] *)

Ltac absorb_prints :=
  rewrite ?flat_map_app, ?existsb_app, ?filter_app;
  repeat match goal with
         | Hp : forallb is_print ?l = true |- context [flat_map _ ?l] =>
             rewrite (flat_map_prints l Hp) by reflexivity
         | Hp : forallb is_print ?l = true |- context [existsb _ ?l] =>
             rewrite (existsb_prints l Hp) by reflexivity
         | Hp : forallb is_print ?l = true |- context [filter _ ?l] =>
             rewrite (filter_prints l Hp) by reflexivity
         end;
  cbn.

Lemma main_exit_status (g : Globals) :
  always any_answer
    (fun l o _ =>
       (forall code, o = Exited code -> code = 1) /\
       (refused every_call l = true <-> o = Exited 1) /\
       (o = Returned tt -> issued is_group_delete l = true))
    main g.
Proof.
  unfold main, refused, issued. explore.
  all: absorb_prints.
  all: split; [intros code Hcode; first [discriminate | now injection Hcode as <-] |].
  all: split; [split; intros H; first [discriminate | reflexivity] |].
  all: intros H; first [discriminate | reflexivity].
Qed.

Lemma main_teardown (g : Globals) :
  always any_answer
    (fun l _ _ =>
       issued is_group_delete l = true ->
       issued is_scanln l = true /\
       issued is_list_resources l = true /\
       List.length (vm_definitions l) = 2%nat /\
       List.length (nic_names l) = 2%nat /\
       refused (fun r => negb (is_group_delete r)) l = false)
    main g.
Proof.
  unfold main, refused, issued, vm_definitions, nic_names. explore.
  all: absorb_prints.
  all: intros H; first [discriminate | repeat split; reflexivity].
Qed.

Lemma main_storage_account (g : Globals) :
  always any_answer
    (fun l o _ =>
       refused is_await l = true ->
       o = Exited 1 /\
       issued is_pip_create l = true /\
       issued is_lb_create l = true /\
       issued is_subnet_create l = true /\
       issued is_availSet_create l = true /\
       issued is_nic_create l = false /\
       issued is_group_delete l = false)
    main g.
Proof.
  unfold main, refused, issued. explore.
  all: absorb_prints.
  all: intros H; first [discriminate | repeat split; reflexivity].
Qed.

Ltac prefix_upto n :=
  first [ exists n; split; [reflexivity | first [intros; discriminate | reflexivity]]
        | match n with
          | S ?m => prefix_upto m
          end ].

Lemma main_follows_script (g : Globals) :
  always any_answer
    (fun l o _ =>
       exists n, operations l = firstn n main_script /\ (o = Returned tt -> n = 16%nat))
    main g.
Proof.
  unfold main, operations. explore.
  all: absorb_prints.
  all: prefix_upto 16%nat.
Qed.

Lemma Forall_prints (P : event -> Prop) (ps : list event) :
  forallb is_print ps = true -> (forall s, P (EvPrint s)) -> Forall P ps.
Proof.
  intros Hps HP. induction ps as [|[r x | s | kind v] ps IH]; simpl in Hps;
    try discriminate; constructor; auto.
Qed.

Ltac show_addressed :=
  repeat first
    [ apply Forall_nil
    | apply Forall_prints; [assumption | intros; exact I]
    | apply Forall_app; split; [apply Forall_prints; [assumption | intros; exact I] |]
    | apply Forall_cons;
      [ first [exact I | split; [reflexivity | right; reflexivity]
              | split; [reflexivity | left; reflexivity]] |] ].

Lemma main_addressed (g : Globals) :
  always any_answer (fun l _ _ => Forall (addressed g) l) main g.
Proof.
  unfold main. explore.
  all: show_addressed.
Qed.

Lemma init_addressed (g : Globals) (c : Client) (group : string) :
  always any_answer (fun l _ _ => Forall (scoped c group) l) init g.
Proof.
  unfold init, createClients. cbn.
  intros [a [e|]] _; cbn.
  - repeat constructor.
  - intros [sub|] _; cbn.
    + intros commit _. cbn. repeat constructor.
    + repeat constructor.
Qed.

Lemma addressed_scoped (g : Globals) (c : Client) (e : event) :
  (forall v, clients g v = c) -> addressed g e -> scoped c (groupName g) e.
Proof.
  intros Hc. destruct e as [r x | s | kind v]; cbn; auto.
  intros [Hclient Hgroup]. split; [| exact Hgroup].
  rewrite Hclient. destruct (handle_of r) as [v|]; cbn; [right | left]; [| reflexivity].
  now rewrite Hc.
Qed.

Ltac close_prefix := split; [reflexivity | split; [reflexivity | lia]].

Ltac vm_prefix :=
  first [ do 3 eexists; exists 2%nat; exists 2%nat; close_prefix
        | do 2 eexists; exists None; exists 1%nat; exists 2%nat; close_prefix
        | do 2 eexists; exists None; exists 1%nat; exists 1%nat; close_prefix
        | exists None, None, None, 0%nat, 1%nat; close_prefix
        | exists None, None, None, 0%nat, 0%nat; close_prefix ].

Lemma main_machines (g : Globals) :
  always any_answer
    (fun l _ _ =>
       exists availSetID nicID1 nicID2 n m,
         vm_definitions l =
           firstn n [ buildVMparams g (vmName1 g) nicID1 availSetID;
                      buildVMparams g (vmName2 g) nicID2 availSetID ] /\
         nic_names l =
           firstn m [ ("nic-" ++ vmName1 g)%string; ("nic-" ++ vmName2 g)%string ] /\
         (n <= m <= n + 1)%nat)
    main g.
Proof.
  unfold main, vm_definitions, nic_names. explore.
  all: absorb_prints.
  all: rewrite ?append_empty_r.
  all: vm_prefix.
Qed.

(** X10.  The exit status of [main].  Whatever the collaborator does,
    [main] never ends the process with a status other than 1; it ends
    with status 1 exactly in the runs in which a call came back with an
    error; and it returns (exit status 0) only in runs that issued the
    deletion of the resource group. *)
Theorem main_exit_status_is_one :
  forall (W : Type) (h : collaborator W) (g : Globals) (w : W),
    (forall code, out (run h main g w) = Exited code -> code = 1) /\
    (refused every_call (log (run h main g w)) = true <-> out (run h main g w) = Exited 1) /\
    (out (run h main g w) = Returned tt ->
     issued is_group_delete (log (run h main g w)) = true).
Proof.
  intros W h g w.
  exact (always_run_any h main _ g (main_exit_status g) w).
Qed.

Lemma main_exit_status_is_one_witness :
  out (run (refusing is_lb_create quota) main declared tt) = Exited 1.
Proof.
  apply (proj1 (proj2 (main_exit_status_is_one unit (refusing is_lb_create quota)
                         declared tt))).
  reflexivity.
Defined.

(** X11.  Teardown comes last.  In every run of [main] in which the
    deletion of the resource group is issued, both network interfaces
    and both virtual machines have been created, the resources have been
    listed and the input line has been read, and no call before the
    deletion came back with an error. *)
Theorem main_deletes_only_after_everything :
  forall (W : Type) (h : collaborator W) (g : Globals) (w : W),
    issued is_group_delete (log (run h main g w)) = true ->
    issued is_scanln (log (run h main g w)) = true /\
    issued is_list_resources (log (run h main g w)) = true /\
    List.length (vm_definitions (log (run h main g w))) = 2%nat /\
    List.length (nic_names (log (run h main g w))) = 2%nat /\
    refused (fun r => negb (is_group_delete r)) (log (run h main g w)) = false.
Proof.
  intros W h g w.
  exact (always_run_any h main _ g (main_teardown g) w).
Qed.

Lemma main_deletes_only_after_everything_witness :
  List.length (vm_definitions (log (run serving main declared tt))) = 2%nat.
Proof.
  apply (main_deletes_only_after_everything unit serving declared tt).
  reflexivity.
Defined.

(** X12.  A storage-account failure is seen late.  The creation is
    started in step 2 but its error is read only after the availability
    set: in every run in which that read returns an error, the public
    IP, the load balancer, the subnet and the availability set have
    already been requested, no network interface has, nothing is
    deleted, and the process ends with status 1. *)
Theorem storage_failure_is_seen_after_the_network :
  forall (W : Type) (h : collaborator W) (g : Globals) (w : W),
    refused is_await (log (run h main g w)) = true ->
    out (run h main g w) = Exited 1 /\
    issued is_pip_create (log (run h main g w)) = true /\
    issued is_lb_create (log (run h main g w)) = true /\
    issued is_subnet_create (log (run h main g w)) = true /\
    issued is_availSet_create (log (run h main g w)) = true /\
    issued is_nic_create (log (run h main g w)) = false /\
    issued is_group_delete (log (run h main g w)) = false.
Proof.
  intros W h g w.
  exact (always_run_any h main _ g (main_storage_account g) w).
Qed.

Lemma storage_failure_is_seen_after_the_network_witness :
  issued is_lb_create (log (run (refusing is_await quota) main declared tt)) = true /\
  issued is_nic_create (log (run (refusing is_await quota) main declared tt)) = false.
Proof.
  destruct (storage_failure_is_seen_after_the_network unit (refusing is_await quota)
              declared tt eq_refl) as (_ & _ & Hlb & _ & _ & Hnic & _).
  split; assumption.
Defined.

(** X13.  [main] never reorders or skips.  Whatever the collaborator
    answers, the operations [main] invokes are an initial segment of the
    sixteen of its script, in that order; a run that returns has invoked
    all sixteen. *)
Theorem main_calls_follow_the_script :
  forall (W : Type) (h : collaborator W) (g : Globals) (w : W),
    exists n,
      operations (log (run h main g w)) = firstn n main_script /\
      (out (run h main g w) = Returned tt -> n = 16%nat).
Proof.
  intros W h g w.
  exact (always_run_any h main _ g (main_follows_script g) w).
Qed.

Lemma main_calls_follow_the_script_witness :
  exists n,
    operations (log (run hollow main declared tt)) = firstn n main_script /\
    (out (run hollow main declared tt) = Returned tt -> n = 16%nat).
Proof. exact (main_calls_follow_the_script unit hollow declared tt). Defined.

(** X14.  Every call of the process is scoped.  When start-up succeeds,
    every SDK call the process makes, in [init] and in [main], goes
    through a handle that holds the subscription id read from
    AZURE_SUBSCRIPTION_ID, the authorizer [GetAuthorizer] returned and
    the sample's user agent, and names the resource group
    "your-azure-sample-group" and no other. *)
Theorem every_call_is_scoped :
  forall (W : Type) (h : collaborator W) (w w1 w2 w3 : W)
         (a : option autorest.BearerAuthorizer) (sub commit : string),
    h (GetAuthorizer azure.PublicCloud) w = ((a, None), w1) ->
    h (GetEnvVarOrExit "AZURE_SUBSCRIPTION_ID") w1 = (Some sub, w2) ->
    h GetCommit w2 = (commit, w3) ->
    Forall (scoped (configured sub a ("sample/0006/" ++ commit)) "your-azure-sample-group")
           (log (run h program declared w)).
Proof.
  intros W h w w1 w2 w3 a sub commit Hauth Henv Hcommit.
  destruct (init_store W h declared w w1 w2 w3 a sub commit Hauth Henv Hcommit)
    as (Hout & _ & _ & Hclients & _ & Hnames & _).
  unfold program. cbn [bind Monad_prog]. rewrite run_bind. cbn zeta.
  rewrite Hout. cbn [log]. apply Forall_app. split.
  - exact (always_run_any h init _ declared (init_addressed declared _ _) w).
  - replace "your-azure-sample-group"
      with (groupName (store_after (run h init declared w)))
      by (destruct Hnames as (Hgroup & _); exact Hgroup).
    eapply Forall_impl; [intros e; apply addressed_scoped; exact Hclients |].
    exact (always_run_any h main _ _ (main_addressed _) _).
Qed.

Lemma every_call_is_scoped_witness :
  Forall (scoped (configured "sub123" (Some (autorest.mkBearerAuthorizer "token"))
                    ("sample/0006/" ++ "c0ffee"))
                 "your-azure-sample-group")
         (log (run serving program declared tt)).
Proof.
  exact (every_call_is_scoped unit serving tt tt tt tt _ _ _ eq_refl eq_refl eq_refl).
Defined.

(** X15.  The two machines.  In every run of [main], the VM definitions
    sent are, in order, an initial segment of the definition of
    [vmName1] and the definition of [vmName2], both referring to one and
    the same availability-set id; the network interfaces are created
    under "nic-<vmName1>" and "nic-<vmName2>", in that order, and each
    VM is sent only after its own interface was requested. *)
Theorem main_machines_in_order :
  forall (W : Type) (h : collaborator W) (g : Globals) (w : W),
    exists availSetID nicID1 nicID2 n m,
      vm_definitions (log (run h main g w)) =
        firstn n [ buildVMparams g (vmName1 g) nicID1 availSetID;
                   buildVMparams g (vmName2 g) nicID2 availSetID ] /\
      nic_names (log (run h main g w)) =
        firstn m [ ("nic-" ++ vmName1 g)%string; ("nic-" ++ vmName2 g)%string ] /\
      (n <= m <= n + 1)%nat.
Proof.
  intros W h g w.
  exact (always_run_any h main _ g (main_machines g) w).
Qed.

(** ** The load-balancer definition refers to its own children *)

(** X16.  No dangling self-reference.  In the load-balancer definition
    [main] builds, whatever the names in the package variables, the
    predicted identifiers are those of children the same definition
    declares: the load-balancing rule refers to the frontend
    configuration, the backend pool and the probe under the names they
    are declared with, both NAT rules refer to that same frontend
    configuration, and the frontend configuration carries the public IP
    the service returned. *)
Theorem lb_definition_is_closed :
  forall (g : Globals) (pip : network.PublicIPAddress),
    exists props rule format,
      network.LoadBalancer_LoadBalancerPropertiesFormat (lbParameters g pip) = Some props /\
      network.LoadBalancerPropertiesFormat_LoadBalancingRules props = Some [rule] /\
      network.LoadBalancingRule_LoadBalancingRulePropertiesFormat rule = Some format /\
      (exists name,
          declares network.FrontendIPConfiguration_Name
            (network.LoadBalancerPropertiesFormat_FrontendIPConfigurations props) name /\
          network.LoadBalancingRulePropertiesFormat_FrontendIPConfiguration format =
            Some {| network.SubResource_ID :=
                      Some (buildID g (subscriptionID g) "frontendIPConfigurations" name) |} /\
          forall nat,
            In nat (match network.LoadBalancerPropertiesFormat_InboundNatRules props with
                    | Some rules => rules
                    | None => []
                    end) ->
            exists f,
              network.InboundNatRule_InboundNatRulePropertiesFormat nat = Some f /\
              network.InboundNatRulePropertiesFormat_FrontendIPConfiguration f =
                network.LoadBalancingRulePropertiesFormat_FrontendIPConfiguration format) /\
      (exists name,
          declares network.BackendAddressPool_Name
            (network.LoadBalancerPropertiesFormat_BackendAddressPools props) name /\
          network.LoadBalancingRulePropertiesFormat_BackendAddressPool format =
            Some {| network.SubResource_ID :=
                      Some (buildID g (subscriptionID g) "backendAddressPools" name) |}) /\
      (exists name,
          declares network.Probe_Name
            (network.LoadBalancerPropertiesFormat_Probes props) name /\
          network.LoadBalancingRulePropertiesFormat_Probe format =
            Some {| network.SubResource_ID :=
                      Some (buildID g (subscriptionID g) "probes" name) |}) /\
      (forall configuration,
          In configuration
             (match network.LoadBalancerPropertiesFormat_FrontendIPConfigurations props with
              | Some configurations => configurations
              | None => []
              end) ->
          exists f,
            network.FrontendIPConfiguration_FrontendIPConfigurationPropertiesFormat
              configuration = Some f /\
            network.FrontendIPConfigurationPropertiesFormat_PublicIPAddress f = Some pip).
Proof.
  intros g pip. unfold lbParameters, buildNATrule. cbn.
  do 3 eexists. split; [reflexivity |]. split; [reflexivity |]. split; [reflexivity |].
  cbn. repeat split.
  - exists (frontEndIPConfigName g). split; [| split; [reflexivity |]].
    + do 2 eexists. split; [reflexivity |]. split; [left; reflexivity | reflexivity].
    + intros nat [<- | [<- | []]]; eexists; split; reflexivity.
  - exists (backEndAddressPoolName g). split; [| reflexivity].
    do 2 eexists. split; [reflexivity |]. split; [left; reflexivity | reflexivity].
  - exists (probeName g). split; [| reflexivity].
    do 2 eexists. split; [reflexivity |]. split; [left; reflexivity | reflexivity].
  - intros configuration [<- | []]. eexists. split; reflexivity.
Qed.

Lemma lb_definition_is_closed_witness :
  exists props rule format,
    network.LoadBalancer_LoadBalancerPropertiesFormat (lbParameters declared served_pip)
      = Some props /\
    network.LoadBalancerPropertiesFormat_LoadBalancingRules props = Some [rule] /\
    network.LoadBalancingRule_LoadBalancingRulePropertiesFormat rule = Some format.
Proof.
  destruct (lb_definition_is_closed declared served_pip)
    as (props & rule & format & H1 & H2 & H3 & _).
  exists props, rule, format. auto.
Defined.
